(** * Stud.IP backend for rclone: a shallow embedding of [backend/studip/studip.go]

    The development follows the Go file top to bottom.  The Go library
    functions the backend calls ([strings.Split], [path.Clean],
    [filepath.Dir], [filepath.Join], [sort.Slice], rclone's
    [fs.DirEntries.Less] and [rest.Client]) are modelled in modules named
    after their packages; the backend itself lives at top level under the
    names it has in the source. *)

From Stdlib Require Import List String Ascii ZArith Lia Bool Arith.
From Stdlib Require Import Permutation Sorting.Sorted.
Import ListNotations.
Open Scope string_scope.

Set Implicit Arguments.

(** ** Go values *)

(** [time.Time] values are only copied from a record into a node and from a
    node into an entry; an integer time stamp stands for them. *)
Definition time_Time := Z.

(** [int64] sizes are copied or set to [-1]; [len] of a slice converts
    without overflow. *)
Definition int64 := Z.

(** Go's [len] on a slice. *)
Definition len {A} (s : list A) : nat := List.length s.

(** A Go [error] value.  Package-level error variables are compared by
    identity, so each is a constant of its own; [errors.New] and
    [fmt.Errorf] values made by the backend carry their text; failures
    reported by the HTTP client (transport, status, decoding) are kept
    apart from both. *)
Inductive error : Type :=
| pkgvar (pkg name : string)
| errors_New (text : string)
| rest_failure (text : string).

(** [err.Error()]. *)
Definition error_text (e : error) : string :=
  match e with
  | pkgvar pkg name => pkg ++ "." ++ name
  | errors_New text => text
  | rest_failure text => text
  end.

(** Go's [(T, error)] return convention: exactly one side is set. *)
Inductive result (T : Type) : Type :=
| Ok (v : T)
| Err (e : error).
Arguments Ok {T} v.
Arguments Err {T} e.

Module context.
Definition Canceled := pkgvar "context" "Canceled".
Definition DeadlineExceeded := pkgvar "context" "DeadlineExceeded".
(** A context as the backend uses it: only [ctx.Err()] is consulted, and
    its answer is the same at every check of one call. *)
Record Context : Type := { Err : option error }.
Definition Background : Context := {| Err := None |}.
End context.

Module fs.
Definition ErrorDirNotFound := pkgvar "fs" "ErrorDirNotFound".
Definition ErrorPermissionDenied := pkgvar "fs" "ErrorPermissionDenied".
Definition ErrorNotImplemented := pkgvar "fs" "ErrorNotImplemented".

(** rclone's [fs.DirEntry] interface, as far as ordering uses it:
    [Remote()] and the dynamic type that [fs.DirEntryType] reports
    (["directory"] or ["object"]). *)
Class DirEntry (E : Type) : Type :=
  { Remote : E -> string;
    DirEntryType : E -> string }.

(** [fs.CompareDirEntries]: Go's [<] and [>] on strings compare byte by
    byte, as [String.compare] does; equal remotes are ordered by type. *)
Definition CompareDirEntries {E} `{DirEntry E} (a b : E) : Z :=
  match String.compare (Remote a) (Remote b) with
  | Gt => 1
  | Lt => -1
  | Eq =>
      match String.compare (DirEntryType a) (DirEntryType b) with
      | Gt => 1
      | Lt => -1
      | Eq => 0
      end
  end%Z.

(** [fs.DirEntries.Less] on the two entries at the given indices. *)
Definition Less {E} `{DirEntry E} (a b : E) : bool :=
  (CompareDirEntries a b <? 0)%Z.
End fs.

Module hash.
Definition ErrUnsupported := pkgvar "hash" "ErrUnsupported".
End hash.

Module os.
(** The plugin builds on Linux and macOS only. *)
Definition PathSeparator : ascii := "/"%char.
End os.

(** ** Go library functions on strings and paths *)

Module strings.
(** [strings.Split(s, sep)] for a one-byte separator: the pieces between
    the separators, one piece more than there are separators. *)
Fixpoint Split (s : string) (sep : ascii) : list string :=
  match s with
  | EmptyString => [EmptyString]
  | String c s' =>
      if Ascii.eqb c sep then EmptyString :: Split s' sep
      else match Split s' sep with
           | h :: t => String c h :: t
           | [] => [String c EmptyString]
           end
  end.

Fixpoint Join (elems : list string) (sep : string) : string :=
  match elems with
  | [] => ""
  | [e] => e
  | e :: rest => e ++ sep ++ Join rest sep
  end.
End strings.

Module path.
(** One path element against the elements kept so far (most recent
    first): empty and [.] elements are dropped, [..] removes the element
    before it, and where there is none it is dropped on a rooted path and
    kept on a relative one. *)
Definition step (rooted : bool) (out : list string) (elem : string)
  : list string :=
  if (elem =? "") || (elem =? ".") then out
  else if elem =? ".." then
    match out with
    | top :: below => if top =? ".." then elem :: out else below
    | [] => if rooted then [] else [elem]
    end
  else elem :: out.

Definition rooted (p : string) : bool :=
  match p with
  | String c _ => Ascii.eqb c "/"%char
  | EmptyString => false
  end.

(** [path.Clean]: the shortest path equivalent to [p] by lexical
    processing alone. *)
Definition Clean (p : string) : string :=
  if p =? "" then "."
  else
    let r := rooted p in
    let out := fold_left (step r) (strings.Split p "/"%char) [] in
    let s := strings.Join (rev out) "/" in
    if r then "/" ++ s
    else if s =? "" then "." else s.
End path.

Module filepath.
(** On Unix [filepath.Clean] is [path.Clean]. *)
Definition Clean := path.Clean.

(** [p[:i+1]] for [i] the index of the last separator of [p] ([-1] when
    there is none). *)
Fixpoint uptoLastSeparator (p : string) : string :=
  match p with
  | EmptyString => EmptyString
  | String c rest =>
      let r := uptoLastSeparator rest in
      if r =? "" then
        if Ascii.eqb c os.PathSeparator then String c EmptyString
        else EmptyString
      else String c r
  end.

(** [filepath.Dir]: all but the last element of [p], cleaned. *)
Definition Dir (p : string) : string := Clean (uptoLastSeparator p).

(** [filepath.Join(a, b)]: the elements from the first non-empty one on,
    joined by the separator and cleaned; [""] when both are empty. *)
Definition Join (a b : string) : string :=
  if negb (a =? "") then Clean (a ++ "/" ++ b)
  else if negb (b =? "") then Clean b
  else "".
End filepath.

Module sort.
Section Slice.
Context {A : Type} (less : A -> A -> bool).

(** The inner loop of Go's insertion sort: the new element moves left
    while it is less than its left neighbour.  The sorted prefix is
    held last element first. *)
Fixpoint sink (x : A) (prefixRev : list A) : list A :=
  match prefixRev with
  | [] => [x]
  | y :: rest => if less x y then y :: sink x rest else x :: prefixRev
  end.

(** [sort.Slice].  Go sorts slices of up to twelve elements by this
    insertion sort and longer ones by pattern-defeating quicksort; both
    yield a permutation ordered by [less], which [less] determines
    when no two elements compare equal ([sorted_permutation_unique]
    below).  The insertion sort is taken at every length. *)
Definition Slice (data : list A) : list A :=
  rev (fold_left (fun prefixRev x => sink x prefixRev) data []).
End Slice.
End sort.

(** ** Effects

    A call of the backend reads and extends the state of the process
    around it: the requests the HTTP client has issued so far, and the
    goroutines that are parked for good on a channel nobody reads any
    more.  A call returns, panics, or does not return. *)

Record St : Type :=
  { requests : list string;
    blocked : nat }.

Inductive outcome (X : Type) : Type :=
| Done (x : X)
| Panic (why : string)
| Diverge.
Arguments Done {X} x.
Arguments Panic {X} why.
Arguments Diverge {X}.

Definition M (A : Type) : Type := St -> outcome (A * St).

Definition ret {A} (a : A) : M A := fun s => Done (a, s).

Definition bind {A B} (m : M A) (k : A -> M B) : M B :=
  fun s =>
    match m s with
    | Done (a, s') => k a s'
    | Panic why => Panic why
    | Diverge => Diverge
    end.

Definition panic {A} (why : string) : M A := fun _ => Panic why.

Definition diverge {A} : M A := fun _ => Diverge.

Notation "x <- m ;; k" := (bind m (fun x => k))
  (at level 61, m at next level, right associativity).

(** The client sends one more request. *)
Definition send (path : string) : M unit :=
  fun s => Done (tt, {| requests := (requests s ++ [path])%list;
                        blocked := blocked s |}).

(** [n] more goroutines stay parked on their channel send. *)
Definition park (n : nat) : M unit :=
  fun s => Done (tt, {| requests := requests s;
                        blocked := blocked s + n |}).

(** ** JSON envelopes of the Stud.IP API *)

Record Page : Type :=
  { Offset : Z; Limit : Z; Total : Z }.

Module StudIPFoldersData.
Record attributes : Type :=
  { FolderType : string;
    Name : string;
    Description : string;
    Mkdate : time_Time;
    Chdate : time_Time;
    IsVisible : bool;
    IsReadable : bool;
    IsWritable : bool;
    IsEditable : bool;
    IsEmpty : bool;
    IsSubfolderAllowed : bool }.
Record t : Type :=
  { Type_ : string;
    ID : string;
    Attributes : attributes }.
End StudIPFoldersData.

Module StudIPFolders.
Record t : Type :=
  { Meta : Page;
    Data : list StudIPFoldersData.t }.
End StudIPFolders.

Module StudIPFilesData.
Record attributes : Type :=
  { Name : string;
    Description : string;
    Mkdate : time_Time;
    Chdate : time_Time;
    Downloads : Z;
    Filesize : int64;
    MimeType : string;
    IsReadable : bool;
    IsDownloadable : bool;
    IsEditable : bool;
    IsWritable : bool }.
Record t : Type :=
  { Type_ : string;
    ID : string;
    Attributes : attributes }.
End StudIPFilesData.

Module StudIPFiles.
Record links : Type := { First : string; Last : string }.
Record t : Type :=
  { Meta : Page;
    Links : links;
    Data : list StudIPFilesData.t }.
End StudIPFiles.

Module StudIPCourses.
Record attributes : Type :=
  { CourseNumber : string;
    Title : string;
    CourseType : Z;
    CourseTypeText : string;
    Description : string;
    Dates : string }.
Record data : Type :=
  { Type_ : string;
    ID : string;
    Attributes : attributes }.
Record t : Type := { Data : data }.
End StudIPCourses.

(** ** The HTTP client *)

Module rest.
(** A response body, already parsed where it is JSON. *)
Inductive Payload : Type :=
| JSONCourses (c : StudIPCourses.t)
| JSONFolders (f : StudIPFolders.t)
| JSONFiles (f : StudIPFiles.t)
| Bytes (content : string).

Record Response : Type :=
  { StatusCode : Z;
    Status : string;
    Body : Payload }.

Inductive Reply : Type :=
| Unreachable (why : string)
| Replied (r : Response).

(** A client configured for one server: what the server answers to a
    GET of a path below the base URL.  Reads do not change the server. *)
Definition Client : Type := string -> Reply.

(** [Client.Call] with method GET: the request is issued; a transport
    failure and a status outside 2xx come back as errors. *)
Definition Call (c : Client) (path : string) : M (result Response) :=
  _ <- send path ;;
  match c path with
  | Unreachable why => ret (Err (rest_failure why))
  | Replied r =>
      if ((StatusCode r <? 200) || (299 <? StatusCode r))%Z
      then ret (Err (rest_failure (Status r)))
      else ret (Ok r)
  end.

(** [Client.CallJSON]: [Call], then the body decoded into the value the
    caller passed; [decode] selects the envelope of that type. *)
Definition CallJSON {A} (c : Client) (path : string)
    (decode : Payload -> option A) : M (result A) :=
  r <- Call c path ;;
  match r with
  | Err e => ret (Err e)
  | Ok resp =>
      match decode (Body resp) with
      | Some a => ret (Ok a)
      | None => ret (Err (rest_failure "json: cannot decode response"))
      end
  end.

Definition asCourses (p : Payload) : option StudIPCourses.t :=
  match p with JSONCourses c => Some c | _ => None end.
Definition asFolders (p : Payload) : option StudIPFolders.t :=
  match p with JSONFolders f => Some f | _ => None end.
Definition asFiles (p : Payload) : option StudIPFiles.t :=
  match p with JSONFiles f => Some f | _ => None end.
End rest.

(** ** The backend: types *)

Record Options : Type :=
  { BaseURL : string;
    Username : string;
    Password : string;
    CourseID : string }.

(** One remote folder or file of the snapshot.  A [*Node] that is not nil
    is identified with the node it points to: after the build nothing
    writes to a node, and the builder hands every node it made to exactly
    one parent. *)
#[warnings="-register-all"]
Inductive Node : Type := mkNode
  { Children : list Node;
    Name : string;
    Id : string;
    IsDir : bool;
    ChDate : time_Time;
    Size : int64;
    ContentType : string }.

(** [rootNode] is a [*Node] and may be nil.  [client] is the configured
    [*rest.Client]; the requests it has sent are part of [St]. *)
Record Fs : Type :=
  { name : string;
    opt : Options;
    client : rest.Client;
    root : string;
    rootNode : option Node }.

Record Object : Type :=
  { o_fs : Fs;
    o_remote : string;
    o_id : string;
    o_size : int64;
    o_isDir : bool;
    o_contentType : string;
    o_modTime : time_Time }.

Record Directory : Type :=
  { d_fs : Fs;
    d_id : string;
    d_name : string;
    d_items : int64;
    d_modTime : time_Time;
    d_remote : string }.

(** The two implementations of [fs.DirEntry] that [List] produces. *)
Inductive Entry : Type :=
| EDirectory (directory : Directory)
| EObject (object : Object).

Definition Object_Remote (o : Object) : string := o_remote o.
Definition Directory_Remote (dir : Directory) : string := d_remote dir.

#[export] Instance Entry_DirEntry : fs.DirEntry Entry :=
  {| fs.Remote := fun e =>
       match e with
       | EDirectory d => Directory_Remote d
       | EObject o => Object_Remote o
       end;
     fs.DirEntryType := fun e =>
       match e with
       | EDirectory _ => "directory"
       | EObject _ => "object"
       end |}.

(** What a source object tells [Put] and [Update] about itself. *)
Record ObjectInfo : Type :=
  { src_remote : string;
    src_size : int64;
    src_modTime : time_Time }.

(** ** The backend: path resolution and listing *)

(** Reading a field through a [*Node]: a nil pointer panics. *)
Definition load {A} (node : option Node) (field : Node -> A) : M A :=
  match node with
  | Some n => ret (field n)
  | None => panic "invalid memory address or nil pointer dereference"
  end.

Definition isNil (node : option Node) : bool :=
  match node with Some _ => false | None => true end.

(** The [for ... range node.Children] loop of [GetNodeAtPath]: the first
    child of that name. *)
Definition firstNamed (segment : string) (children : list Node)
  : option Node :=
  find (fun child => Name child =? segment) children.

Fixpoint GetNodeAtPath (node : option Node) (pathSplit : list string)
  : M (option Node) :=
  match pathSplit with
  | [] => ret node
  | segment :: rest =>
      if segment =? "." then ret node
      else if segment =? "" then ret node
      else
        children <- load node Children ;;
        match firstNamed segment children with
        | Some child => GetNodeAtPath (Some child) rest
        | None => ret None
        end
  end.

Definition splitPath (p : string) : list string :=
  let p := path.Clean p in
  if p =? "/" then [] else strings.Split p "/"%char.

Definition projectEntry (f : Fs) (dir : string) (entry : Node) : Entry :=
  if IsDir entry then
    EDirectory
      {| d_fs := f;
         d_remote := filepath.Join dir (Name entry);
         d_id := Id entry;
         d_items := Z.of_nat (len (Children entry));
         d_name := Name entry;
         d_modTime := ChDate entry |}
  else
    EObject
      {| o_fs := f;
         o_remote := filepath.Join dir (Name entry);
         o_id := Id entry;
         o_size := Size entry;
         o_contentType := ContentType entry;
         o_modTime := ChDate entry;
         o_isDir := IsDir entry |}.

(** [Fs.List].  The guard reads [node.IsDir] before it compares [node]
    with nil, in the order the source writes the disjunction. *)
Definition List (f : Fs) (ctx : context.Context) (dir : string)
  : M (result (list Entry)) :=
  match context.Err ctx with
  | Some e => ret (Err e)
  | None =>
      let pathSplit := strings.Split dir os.PathSeparator in
      node <- GetNodeAtPath (rootNode f) pathSplit ;;
      isDir <- load node IsDir ;;
      if negb isDir || isNil node then ret (Err fs.ErrorDirNotFound)
      else
        children <- load node Children ;;
        let entries :=
          fold_left (fun entries entry =>
                       (entries ++ [projectEntry f dir entry])%list)
                    children [] in
        ret (Ok (sort.Slice fs.Less entries))
  end.

(** ** The backend: fetching *)

Definition TestConnection (f : Fs) (ctx : context.Context)
  : M (option error) :=
  match context.Err ctx with
  | Some e => ret (Some e)
  | None =>
      let URL := "courses/" ++ CourseID (opt f) in
      res <- rest.Call (client f) URL ;;
      match res with
      | Err e => ret (Some e)
      | Ok res =>
          match rest.asCourses (rest.Body res) with
          | None => ret (Some (rest_failure "json: cannot decode response"))
          | Some responseJSON =>
              let got := StudIPCourses.ID (StudIPCourses.Data responseJSON) in
              if negb (got =? CourseID (opt f)) then
                ret (Some (errors_New
                  ("received courseID doesn't match configured courseID, received: "
                     ++ got ++ ", want: " ++ CourseID (opt f))))
              else ret None
          end
      end
  end.

Definition RetrieveFoldersOfFolder (f : Fs) (ctx : context.Context)
    (folderID : string) : M (result StudIPFolders.t) :=
  match context.Err ctx with
  | Some e => ret (Err e)
  | None =>
      let URL := "folders/" ++ folderID ++ "/folders" in
      rest.CallJSON (client f) URL rest.asFolders
  end.

Definition RetrieveFilesOfFolder (f : Fs) (ctx : context.Context)
    (folderID : string) : M (result StudIPFiles.t) :=
  match context.Err ctx with
  | Some e => ret (Err e)
  | None =>
      let URL := "folders/" ++ folderID ++ "/file-refs" in
      rest.CallJSON (client f) URL rest.asFiles
  end.

Definition isRootFolder (e : StudIPFoldersData.t) : bool :=
  StudIPFoldersData.FolderType (StudIPFoldersData.Attributes e)
  =? "RootFolder".

Definition RetrieveRootFolderID (f : Fs) (ctx : context.Context)
  : M (result string) :=
  match context.Err ctx with
  | Some e => ret (Err e)
  | None =>
      let URL := "courses/" ++ CourseID (opt f) ++ "/folders" in
      res <- rest.CallJSON (client f) URL rest.asFolders ;;
      match res with
      | Err e => ret (Err e)
      | Ok responseJSON =>
          (* slices.IndexFunc: the first element that satisfies the test *)
          match find isRootFolder (StudIPFolders.Data responseJSON) with
          | None => ret (Err (errors_New "response doesn't contain a RootFolder"))
          | Some e => ret (Ok (StudIPFoldersData.ID e))
          end
      end
  end.

(** ** The backend: building the tree *)

(** The order in which the parent of folder [id] gets to read its
    children's reports: at each receive the choice (modulo the number of
    tasks not yet heard) of the task whose send meets it.  The Go runtime
    fixes it; every theorem about the build ranges over all of them. *)
Definition Sched : Type := string -> list nat.

(** The node the folder loop appends for one folder record. *)
Definition folderChild (folder : StudIPFoldersData.t) : Node :=
  {| Children := [];
     Id := StudIPFoldersData.ID folder;
     IsDir := true;
     Name := StudIPFoldersData.Name (StudIPFoldersData.Attributes folder);
     ChDate := StudIPFoldersData.Chdate (StudIPFoldersData.Attributes folder);
     Size := (-1)%Z;
     ContentType := "" |}.

(** The node the file loop appends for one file record it keeps. *)
Definition fileChild (file : StudIPFilesData.t) : Node :=
  {| Children := [];
     Id := StudIPFilesData.ID file;
     IsDir := false;
     Name := StudIPFilesData.Name (StudIPFilesData.Attributes file);
     ChDate := StudIPFilesData.Chdate (StudIPFilesData.Attributes file);
     Size := StudIPFilesData.Filesize (StudIPFilesData.Attributes file);
     ContentType := StudIPFilesData.MimeType (StudIPFilesData.Attributes file) |}.

(** The [continue] test of the file loop. *)
Definition skipped (file : StudIPFilesData.t) : bool :=
  negb (StudIPFilesData.IsReadable (StudIPFilesData.Attributes file))
  || negb (StudIPFilesData.IsDownloadable (StudIPFilesData.Attributes file)).

(** [folderNode.Children = ...]: the node with its children replaced. *)
Definition withChildren (folderNode : Node) (children : list Node) : Node :=
  {| Children := children;
     Name := Name folderNode;
     Id := Id folderNode;
     IsDir := IsDir folderNode;
     ChDate := ChDate folderNode;
     Size := Size folderNode;
     ContentType := ContentType folderNode |}.

Definition appendChild (folderNode child : Node) : Node :=
  withChildren folderNode (Children folderNode ++ [child])%list.

(** The [go func() { errChan <- f.FillFolderNode(ctx, childrenNode) }()]
    loop: every task runs the fill of its own child; what it will send is
    kept until the parent receives it.  Requests of tasks that run side by
    side are recorded task after task in launch order. *)
Fixpoint spawn (task : Node -> M (result Node)) (children : list Node)
  : M (list (result Node)) :=
  match children with
  | [] => ret []
  | child :: rest =>
      r <- task child ;;
      rs <- spawn task rest ;;
      ret (r :: rs)
  end.

(** The value a task sends on [errChan]. *)
Definition report (r : result Node) : option error :=
  match r with Ok _ => None | Err e => Some e end.

(** The child as its task left it; a task that failed leaves its node in
    no state the build goes on to use. *)
Definition filled (child : Node) (r : result Node) : Node :=
  match r with Ok child' => child' | Err _ => child end.

(** One [<-errChan] on the unbuffered channel: it meets the send of one
    of the tasks not yet heard, which then is gone from them. *)
Definition receive (choice : nat) (pending : list (option error))
  : option (option error * list (option error)) :=
  match pending with
  | [] => None
  | _ :: _ =>
      let i := choice mod len pending in
      Some (nth i pending None,
            (firstn i pending ++ skipn (S i) pending)%list)
  end.

(** The loop [for range length { err := <-errChan; if err != nil { return
    err } }].  A return inside the loop leaves the tasks not yet heard
    parked on their send.  A receive with no task left would block for
    good. *)
Fixpoint drain (length : nat) (choices : list nat)
    (pending : list (option error)) : M (option error) :=
  match length with
  | O => ret None
  | S length' =>
      match receive (hd O choices) pending with
      | None => diverge
      | Some (Some err, pending') =>
          _ <- park (len pending') ;;
          ret (Some err)
      | Some (None, pending') => drain length' (tl choices) pending'
      end
  end.

(** [Fs.FillFolderNode].  The method fills [*folderNode] in place and
    returns an error; here it returns the filled node, or the error, after
    which [GetCourseFileTree] drops the node.  [slices.Grow] changes
    capacity only.  [fuel] bounds the depth of the walk. *)
Fixpoint FillFolderNode (fuel : nat) (f : Fs) (ctx : context.Context)
    (sched : Sched) (folderNode : Node) : M (result Node) :=
  match fuel with
  | O => diverge
  | S fuel' =>
      match context.Err ctx with
      | Some e => ret (Err e)
      | None =>
          if negb (IsDir folderNode)
          then ret (Err (errors_New "node isn't a folder"))
          else
            folders <- RetrieveFoldersOfFolder f ctx (Id folderNode) ;;
            match folders with
            | Err e => ret (Err e)
            | Ok folders =>
                let folderNode :=
                  fold_left (fun n folder => appendChild n (folderChild folder))
                            (StudIPFolders.Data folders) folderNode in
                let length := len (Children folderNode) in
                outs <- spawn (FillFolderNode fuel' f ctx sched)
                              (Children folderNode) ;;
                err <- drain length (sched (Id folderNode))
                             (map report outs) ;;
                match err with
                | Some e => ret (Err e)
                | None =>
                    let folderNode :=
                      withChildren folderNode
                        (map (fun co => filled (fst co) (snd co))
                             (combine (Children folderNode) outs)) in
                    files <- RetrieveFilesOfFolder f ctx (Id folderNode) ;;
                    match files with
                    | Err e => ret (Err e)
                    | Ok files =>
                        ret (Ok (fold_left
                                   (fun n file =>
                                      if skipped file then n
                                      else appendChild n (fileChild file))
                                   (StudIPFiles.Data files) folderNode))
                    end
                end
            end
      end
  end.

(** [new(Node)]. *)
Definition new_Node : Node :=
  {| Children := []; Name := ""; Id := ""; IsDir := false;
     ChDate := 0%Z; Size := 0%Z; ContentType := "" |}.

Definition GetCourseFileTree (fuel : nat) (f : Fs) (ctx : context.Context)
    (sched : Sched) (rootFolderID : string) : M (result Node) :=
  match context.Err ctx with
  | Some e => ret (Err e)
  | None =>
      let rootNode :=
        {| Children := Children new_Node; Name := Name new_Node;
           Id := rootFolderID; IsDir := true;
           ChDate := ChDate new_Node; Size := Size new_Node;
           ContentType := ContentType new_Node |} in
      FillFolderNode fuel f ctx sched rootNode
  end.

(** ** The backend: initialisation *)

(** What [NewFs] takes from the libraries around it: [url.Parse] followed
    by [String()], [obscure.Reveal], and the server that a client set up
    for a base URL and a login talks to. *)
Record Host : Type :=
  { url_Parse : string -> result string;
    obscure_Reveal : string -> result string;
    serve : string -> string -> string -> rest.Client }.

(** [configstruct.Set] on [Options]: every field is a string and takes the
    value the mapper has for its key, when it has one. *)
Definition configstruct_Set (m : string -> option string) : Options :=
  let get key := match m key with Some v => v | None => "" end in
  {| BaseURL := get "base_url";
     Username := get "username";
     Password := get "password";
     CourseID := get "course_id" |}.

(** [obscure.MustReveal] panics where [obscure.Reveal] fails. *)
Definition obscure_MustReveal (host : Host) (x : string) : M string :=
  match obscure_Reveal host x with
  | Ok v => ret v
  | Err _ => panic "obscure.MustReveal: input is not obscured"
  end.

Definition NewFs (host : Host) (fuel : nat) (sched : Sched)
    (ctx : context.Context) (name root : string)
    (m : string -> option string) : M (result Fs) :=
  match context.Err ctx with
  | Some e => ret (Err e)
  | None =>
      let opt := configstruct_Set m in
      if CourseID opt =? "" then ret (Err (errors_New "course_id is required"))
      else
        match url_Parse host (BaseURL opt) with
        | Err err =>
            ret (Err (errors_New ("invalid base_url: " ++ error_text err)))
        | Ok base =>
            password <- obscure_MustReveal host (Password opt) ;;
            let httpClient := serve host base (Username opt) password in
            let f := {| name := name; opt := opt; client := httpClient;
                        root := root; rootNode := None |} in
            err <- TestConnection f ctx ;;
            match err with
            | Some e => ret (Err e)
            | None =>
                rootID <- RetrieveRootFolderID f ctx ;;
                match rootID with
                | Err e => ret (Err e)
                | Ok rootID =>
                    tree <- GetCourseFileTree fuel f ctx sched rootID ;;
                    match tree with
                    | Err e => ret (Err e)
                    | Ok tree =>
                        let f := {| name := name; opt := opt;
                                    client := httpClient; root := root;
                                    rootNode := Some tree |} in
                        if negb (root =? "") then
                          let pathSplit := splitPath (filepath.Dir root) in
                          node <- GetNodeAtPath (rootNode f) pathSplit ;;
                          ret (Ok {| name := name; opt := opt;
                                     client := httpClient; root := root;
                                     rootNode := node |})
                        else ret (Ok f)
                    end
                end
            end
        end
  end.

(** ** The backend: the remaining methods of [Fs] and [Object] *)

Definition NewObject (f : Fs) (ctx : context.Context) (remote : string)
  : M (result Object) := ret (Err fs.ErrorNotImplemented).

Definition Put (f : Fs) (ctx : context.Context) (in_ : string)
    (src : ObjectInfo) : M (result Object) :=
  ret (Err fs.ErrorPermissionDenied).

Definition Mkdir (f : Fs) (ctx : context.Context) (dir : string)
  : M (option error) := ret (Some fs.ErrorPermissionDenied).

Definition Rmdir (f : Fs) (ctx : context.Context) (dir : string)
  : M (option error) := ret (Some fs.ErrorPermissionDenied).

Definition Purge (f : Fs) (ctx : context.Context) (dir : string)
  : M (option error) := ret (Some fs.ErrorPermissionDenied).

Definition Copy (f : Fs) (ctx : context.Context) (src : Object)
    (remote : string) : M (result Object) :=
  ret (Err fs.ErrorPermissionDenied).

Definition Move (f : Fs) (ctx : context.Context) (src : Object)
    (remote : string) : M (result Object) :=
  ret (Err fs.ErrorPermissionDenied).

Definition DirMove (f : Fs) (ctx : context.Context) (src : Fs)
    (srcRemote dstRemote : string) : M (option error) :=
  ret (Some fs.ErrorPermissionDenied).

Definition Object_SetModTime (o : Object) (ctx : context.Context)
    (t : time_Time) : M (option error) :=
  ret (Some fs.ErrorNotImplemented).

Definition Object_Update (o : Object) (ctx : context.Context) (in_ : string)
    (src : ObjectInfo) : M (option error) :=
  ret (Some fs.ErrorNotImplemented).

Definition Object_Remove (o : Object) (ctx : context.Context)
  : M (option error) := ret (Some fs.ErrorNotImplemented).

(** [Object.Open]: the one method of an entry that talks to the server. *)
Definition Object_Open (o : Object) (ctx : context.Context)
  : M (result rest.Payload) :=
  match context.Err ctx with
  | Some e => ret (Err e)
  | None =>
      let URL := "file-refs/" ++ o_id o ++ "/content" in
      res <- rest.Call (client (o_fs o)) URL ;;
      match res with
      | Err e => ret (Err e)
      | Ok res =>
          if negb (rest.StatusCode res / 100 =? 2)%Z
          then ret (Err (errors_New ("HTTP " ++ rest.Status res)))
          else ret (Ok (rest.Body res))
      end
  end.

(** ** The backend: accessors *)

Definition Fs_Name (f : Fs) : string := name f.
Definition Fs_Root (f : Fs) : string := root f.
Definition Fs_String (f : Fs) : string := BaseURL (opt f).

Definition Object_Fs (o : Object) : Fs := o_fs o.

(** [Object.String] is the one method that tests its receiver for nil. *)
Definition Object_String (o : option Object) : string :=
  match o with
  | None => "<nil>"
  | Some o => o_remote o
  end.

Definition Object_Hash (o : Object) (ctx : context.Context)
  : string * option error := ("", Some hash.ErrUnsupported).

Definition Object_Size (o : Object) : int64 := o_size o.

Definition Object_ModTime (o : Object) (ctx : context.Context) : time_Time :=
  o_modTime o.

Definition Object_MimeType (o : Object) (ctx : context.Context) : string :=
  o_contentType o.

Definition Object_Storable (o : Object) : bool := true.

Definition Directory_Fs (dir : Directory) : Fs := d_fs dir.
Definition Directory_ID (dir : Directory) : string := d_id dir.
Definition Directory_Items (dir : Directory) : int64 := d_items dir.
Definition Directory_String (dir : Directory) : string := d_name dir.

Definition Directory_ModTime (dir : Directory) (ctx : context.Context)
  : time_Time := d_modTime dir.

Definition Directory_Size (dir : Directory) : int64 := (-1)%Z.

(** ** A small course

    The remote tree [root/ {docs/ {a.pdf}, B/, notes.txt, hidden, a}] behind
    a server that cannot list the subfolders of [B], and a few snapshots
    written out by hand. *)

Module SampleCourse.
Definition folderRecord (folderType id name : string) : StudIPFoldersData.t :=
  {| StudIPFoldersData.Type_ := "folders";
     StudIPFoldersData.ID := id;
     StudIPFoldersData.Attributes :=
       {| StudIPFoldersData.FolderType := folderType;
          StudIPFoldersData.Name := name;
          StudIPFoldersData.Description := "";
          StudIPFoldersData.Mkdate := 1%Z;
          StudIPFoldersData.Chdate := 7%Z;
          StudIPFoldersData.IsVisible := true;
          StudIPFoldersData.IsReadable := true;
          StudIPFoldersData.IsWritable := false;
          StudIPFoldersData.IsEditable := false;
          StudIPFoldersData.IsEmpty := false;
          StudIPFoldersData.IsSubfolderAllowed := true |} |}.

Definition fileRecord (id name : string) (size : Z)
    (readable downloadable : bool) : StudIPFilesData.t :=
  {| StudIPFilesData.Type_ := "file-refs";
     StudIPFilesData.ID := id;
     StudIPFilesData.Attributes :=
       {| StudIPFilesData.Name := name;
          StudIPFilesData.Description := "";
          StudIPFilesData.Mkdate := 1%Z;
          StudIPFilesData.Chdate := 9%Z;
          StudIPFilesData.Downloads := 0%Z;
          StudIPFilesData.Filesize := size;
          StudIPFilesData.MimeType := "text/plain";
          StudIPFilesData.IsReadable := readable;
          StudIPFilesData.IsDownloadable := downloadable;
          StudIPFilesData.IsEditable := false;
          StudIPFilesData.IsWritable := false |} |}.

Definition page : Page := {| Offset := 0; Limit := 30; Total := 3 |}%Z.

Definition ok (body : rest.Payload) : rest.Reply :=
  rest.Replied {| rest.StatusCode := 200; rest.Status := "200 OK";
                  rest.Body := body |}.

Definition folders (data : list StudIPFoldersData.t) : rest.Reply :=
  ok (rest.JSONFolders {| StudIPFolders.Meta := page;
                          StudIPFolders.Data := data |}).

Definition files (data : list StudIPFilesData.t) : rest.Reply :=
  ok (rest.JSONFiles
        {| StudIPFiles.Meta := page;
           StudIPFiles.Links := {| StudIPFiles.First := "";
                                   StudIPFiles.Last := "" |};
           StudIPFiles.Data := data |}).

Definition course (id : string) : rest.Reply :=
  ok (rest.JSONCourses
        {| StudIPCourses.Data :=
             {| StudIPCourses.Type_ := "courses";
                StudIPCourses.ID := id;
                StudIPCourses.Attributes :=
                  {| StudIPCourses.CourseNumber := "03-05";
                     StudIPCourses.Title := "Logic";
                     StudIPCourses.CourseType := 1%Z;
                     StudIPCourses.CourseTypeText := "Lecture";
                     StudIPCourses.Description := "";
                     StudIPCourses.Dates := "" |} |} |}).

Definition rootFiles : list StudIPFilesData.t :=
  [ fileRecord "n" "notes.txt" 5 true true;
    fileRecord "h" "hidden" 5 true false;
    fileRecord "u" "unreadable" 5 false true;
    fileRecord "a" "a" 1 true true ].

(** [broken] says whether listing the subfolders of [B] fails. *)
Definition server (broken : bool) : rest.Client := fun path =>
  if path =? "courses/c1" then course "c1"
  else if path =? "courses/c1/folders" then
    folders [folderRecord "StandardFolder" "x" "other";
             folderRecord "RootFolder" "r" ""]
  else if path =? "folders/r/folders" then
    folders [folderRecord "StandardFolder" "d" "docs";
             folderRecord "StandardFolder" "b" "B"]
  else if path =? "folders/r/file-refs" then files rootFiles
  else if path =? "folders/d/folders" then folders []
  else if path =? "folders/d/file-refs" then
    files [fileRecord "p" "a.pdf" 10 true true]
  else if path =? "folders/b/folders" then
    if broken then rest.Unreachable "connection reset by peer"
    else folders []
  else if path =? "folders/b/file-refs" then files []
  else rest.Unreachable "no route to host".

Definition host (broken : bool) : Host :=
  {| url_Parse := fun u => Ok u;
     obscure_Reveal := fun p => Ok p;
     serve := fun _ _ _ => server broken |}.

Definition config (key : string) : option string :=
  if key =? "course_id" then Some "c1"
  else if key =? "base_url" then Some "https://studip.example/jsonapi.php/v1/"
  else None.

Definition idle : St := {| requests := []; blocked := 0 |}.

(** The parent hears its children in launch order. *)
Definition inOrder : Sched := fun _ => [].

(** The parent of [r] hears its second child first. *)
Definition secondFirst : Sched := fun id => if id =? "r" then [1] else [].

Definition mounted (broken : bool) (tree : option Node) : Fs :=
  {| name := "studip"; opt := configstruct_Set config;
     client := server broken; root := ""; rootNode := tree |}.

Definition dir (id name : string) (children : list Node) : Node :=
  {| Children := children; Name := name; Id := id; IsDir := true;
     ChDate := 7%Z; Size := (-1)%Z; ContentType := "" |}.

Definition leaf (id name : string) (size : Z) : Node :=
  {| Children := []; Name := name; Id := id; IsDir := false;
     ChDate := 9%Z; Size := size; ContentType := "text/plain" |}.

(** The snapshot of the course when the server is sound. *)
Definition snapshot : Node :=
  {| Children := [ dir "d" "docs" [leaf "p" "a.pdf" 10];
                   dir "b" "B" [];
                   leaf "n" "notes.txt" 5;
                   leaf "a" "a" 1 ];
     Name := ""; Id := "r"; IsDir := true;
     ChDate := 0%Z; Size := 0%Z; ContentType := "" |}.

(** A folder whose children come in the order [b], [A], [c]. *)
Definition bAc : Node :=
  dir "r" "" [leaf "1" "b" 1; leaf "2" "A" 1; leaf "3" "c" 1].

(** A folder with the children [a] and [B]. *)
Definition aB : Node := dir "r" "" [leaf "1" "a" 1; leaf "2" "B" 1].

(** The state after the build of the course from [idle]. *)
Definition afterBuild : St :=
  {| requests :=
       ["courses/c1"; "courses/c1/folders"; "folders/r/folders";
        "folders/d/folders"; "folders/d/file-refs";
        "folders/b/folders"; "folders/b/file-refs";
        "folders/r/file-refs"];
     blocked := 0 |}.

(** The root folder as [GetCourseFileTree] hands it to the builder. *)
Definition rootFolder : Node :=
  {| Children := []; Name := ""; Id := "r"; IsDir := true;
     ChDate := 0%Z; Size := 0%Z; ContentType := "" |}.

Definition anObject : Object :=
  {| o_fs := mounted false (Some snapshot); o_remote := "notes.txt";
     o_id := "n"; o_size := 5%Z; o_isDir := false;
     o_contentType := "text/plain"; o_modTime := 9%Z |}.
End SampleCourse.

(** ** Vocabulary of the statements *)

(** The error of a [(T, error)] pair. *)
Definition failure {T} (r : result T) : option error :=
  match r with Ok _ => None | Err e => Some e end.

(** A write-class call together with its arguments. *)
Inductive WriteCall : Type :=
| CallPut (f : Fs) (ctx : context.Context) (in_ : string) (src : ObjectInfo)
| CallMkdir (f : Fs) (ctx : context.Context) (dir : string)
| CallRmdir (f : Fs) (ctx : context.Context) (dir : string)
| CallPurge (f : Fs) (ctx : context.Context) (dir : string)
| CallCopy (f : Fs) (ctx : context.Context) (src : Object) (remote : string)
| CallMove (f : Fs) (ctx : context.Context) (src : Object) (remote : string)
| CallDirMove (f : Fs) (ctx : context.Context) (src : Fs)
    (srcRemote dstRemote : string)
| CallSetModTime (o : Object) (ctx : context.Context) (t : time_Time)
| CallUpdate (o : Object) (ctx : context.Context) (in_ : string)
    (src : ObjectInfo)
| CallRemove (o : Object) (ctx : context.Context).

(** Making the call and keeping the error it returns. *)
Definition perform (c : WriteCall) : M (option error) :=
  match c with
  | CallPut f ctx in_ src => r <- Put f ctx in_ src ;; ret (failure r)
  | CallMkdir f ctx dir => Mkdir f ctx dir
  | CallRmdir f ctx dir => Rmdir f ctx dir
  | CallPurge f ctx dir => Purge f ctx dir
  | CallCopy f ctx src remote => r <- Copy f ctx src remote ;; ret (failure r)
  | CallMove f ctx src remote => r <- Move f ctx src remote ;; ret (failure r)
  | CallDirMove f ctx src srcRemote dstRemote =>
      DirMove f ctx src srcRemote dstRemote
  | CallSetModTime o ctx t => Object_SetModTime o ctx t
  | CallUpdate o ctx in_ src => Object_Update o ctx in_ src
  | CallRemove o ctx => Object_Remove o ctx
  end.

(** Whether the call is a method of [Fs] (as opposed to [Object]). *)
Definition onFs (c : WriteCall) : bool :=
  match c with
  | CallSetModTime _ _ _ | CallUpdate _ _ _ _ | CallRemove _ _ => false
  | _ => true
  end.

(** Case folding of the ASCII letters, and the order of two names once
    folded: the case-insensitive ordinal comparison of a listing. *)
Definition foldCase (c : ascii) : ascii :=
  let n := nat_of_ascii c in
  if ((65 <=? n)%nat && (n <=? 90)%nat)%bool then ascii_of_nat (n + 32) else c.

Fixpoint foldCases (s : string) : string :=
  match s with
  | EmptyString => EmptyString
  | String c rest => String (foldCase c) (foldCases rest)
  end.

Definition caseInsensitiveLe (a b : string) : Prop :=
  String.leb (foldCases a) (foldCases b) = true.

(** The order [fs.DirEntries.Less] sorts by, as a relation. *)
Definition entryLe (a b : Entry) : Prop :=
  (fs.CompareDirEntries a b <= 0)%Z.

(** [e] and [k] compare equal: same remote, same type. *)
Definition tied (k e : Entry) : bool :=
  (fs.CompareDirEntries e k =? 0)%Z.

(** [n] is [t] or lies below it. *)
Inductive inTree (n : Node) : Node -> Prop :=
| inTree_here : inTree n n
| inTree_below (c t : Node) :
    In c (Children t) -> inTree n c -> inTree n t.

(** The fetch for a folder answers with [a], whatever was sent before. *)
Definition fetches {A} (m : M (result A)) (a : A) : Prop :=
  forall s, exists s', m s = Done (Ok a, s').

(** The shape of a folder of the snapshot: its children are the nodes of
    its subfolder records, in the order of the response and each of that
    shape again, and after them the nodes of the file records that the
    file loop does not skip, in the order of the response. *)
#[warnings="-register-all"]
Inductive Built (f : Fs) (ctx : context.Context) : Node -> Prop :=
| Built_folder (n : Node) (folders : StudIPFolders.t) (files : StudIPFiles.t)
    (subs : list Node) :
    IsDir n = true ->
    fetches (RetrieveFoldersOfFolder f ctx (Id n)) folders ->
    fetches (RetrieveFilesOfFolder f ctx (Id n)) files ->
    Forall2 (fun folder sub =>
               Built f ctx sub /\ withChildren sub [] = folderChild folder)
            (StudIPFolders.Data folders) subs ->
    Children n =
      (subs ++ map fileChild
                   (filter (fun file => negb (skipped file))
                           (StudIPFiles.Data files)))%list ->
    Built f ctx n.

(** Whether a path holds a separator. *)
Fixpoint hasSeparator (p : string) : bool :=
  match p with
  | EmptyString => false
  | String c rest => Ascii.eqb c os.PathSeparator || hasSeparator rest
  end.

(** A path element that [path.Clean] keeps as it is: not empty, not [.],
    not [..], and without a separator. *)
Definition plainSegment (d : string) : bool :=
  negb (hasSeparator d) && negb (d =? "") && negb (d =? ".")
  && negb (d =? "..").

(** The number of directory nodes of a tree. *)
Fixpoint dirCount (n : Node) : nat :=
  match n with
  | mkNode children _ _ isDir _ _ _ =>
      (if isDir then 1 else 0)
      + (fix total (l : list Node) : nat :=
           match l with
           | [] => 0
           | c :: l' => dirCount c + total l'
           end) children
  end.



(** The calls [e.Size()] and [e.ModTime(ctx)] on an entry of a listing,
    through the [fs.DirEntry] interface. *)
Definition Entry_Size (e : Entry) : int64 :=
  match e with
  | EDirectory d => Directory_Size d
  | EObject o => Object_Size o
  end.

Definition Entry_ModTime (e : Entry) (ctx : context.Context) : time_Time :=
  match e with
  | EDirectory d => Directory_ModTime d ctx
  | EObject o => Object_ModTime o ctx
  end.

(** The entry [e] shows the node [c] listed under [dir] by [f]. *)
Definition shows (f : Fs) (ctx : context.Context) (dir : string)
    (e : Entry) (c : Node) : Prop :=
  fs.Remote e = filepath.Join dir (Name c)
  /\ Entry_Size e = Size c
  /\ Entry_ModTime e ctx = ChDate c
  /\ match e with
     | EDirectory d =>
         IsDir c = true
         /\ Directory_Fs d = f
         /\ Directory_ID d = Id c
         /\ Directory_String d = Name c
         /\ Directory_Items d = Z.of_nat (len (Children c))
     | EObject o =>
         IsDir c = false
         /\ Object_Fs o = f
         /\ Object_MimeType o ctx = ContentType c
     end.

(** * Theorems *)

(** ** Path resolution *)

(** C6: resolving the empty segment sequence, the sequence [["."]] or the
    sequence [[""]] against any node (nil included) returns that node and
    touches nothing else. *)
Theorem GetNodeAtPath_root_denoting (node : option Node) :
  GetNodeAtPath node [] = ret node
  /\ GetNodeAtPath node ["."] = ret node
  /\ GetNodeAtPath node [""] = ret node.
Proof. repeat split. Qed.

(** C9: when the first segment is ["."] or the empty string, the resolver
    returns the current node at once, whatever segments follow. *)
Theorem GetNodeAtPath_first_segment_stops
    (node : option Node) (segment : string) (rest : list string) :
  segment = "." \/ segment = "" ->
  GetNodeAtPath node (segment :: rest) = ret node.
Proof.
  intros [-> | ->]; reflexivity.
Qed.

Lemma GetNodeAtPath_first_segment_stops_witness :
  ("." = "." \/ "." = "")
  /\ GetNodeAtPath (Some SampleCourse.snapshot) ["."; "docs"]
     = ret (Some SampleCourse.snapshot).
Proof.
  split.
  - left; reflexivity.
  - apply (GetNodeAtPath_first_segment_stops
             (Some SampleCourse.snapshot) (segment := ".") ["docs"]).
    left; reflexivity.
Defined.

(** From a node that is not nil the resolver returns (a node or nil) and
    leaves the state alone. *)
Lemma GetNodeAtPath_returns (pathSplit : list string) :
  forall (n : Node) (s : St),
    exists r, GetNodeAtPath (Some n) pathSplit s = Done (r, s).
Proof.
  induction pathSplit as [|segment rest IH]; intros n s; cbn.
  - eexists; reflexivity.
  - destruct (segment =? "."); [eexists; reflexivity|].
    destruct (segment =? ""); [eexists; reflexivity|].
    unfold bind; cbn.
    destruct (firstNamed segment (Children n)) as [child|].
    + apply IH.
    + eexists; reflexivity.
Qed.

(** What the resolver returns from a node of a tree lies in that tree. *)
Lemma GetNodeAtPath_inTree (pathSplit : list string) :
  forall (n r : Node) (s s' : St),
    GetNodeAtPath (Some n) pathSplit s = Done (Some r, s') -> inTree r n.
Proof.
  induction pathSplit as [|segment rest IH]; intros n r s s'; cbn.
  - unfold ret; intros [= -> _]; constructor.
  - destruct (segment =? "."); [unfold ret; intros [= -> _]; constructor|].
    destruct (segment =? ""); [unfold ret; intros [= -> _]; constructor|].
    unfold bind; cbn.
    destruct (firstNamed segment (Children n)) as [child|] eqn:E.
    + intros H. apply IH in H.
      apply inTree_below with (c := child); [|exact H].
      unfold firstNamed in E. apply find_some in E. apply E.
    + unfold ret; discriminate.
Qed.

(** ** Listing a path that does not resolve *)

(** Where the resolver returns nil, [List] panics on [node.IsDir]. *)
Lemma List_nil_node_panics (f : Fs) (ctx : context.Context) (dir : string)
    (s s' : St) :
  context.Err ctx = None ->
  GetNodeAtPath (rootNode f) (strings.Split dir os.PathSeparator) s
  = Done (None, s') ->
  List f ctx dir s = Panic "invalid memory address or nil pointer dereference".
Proof.
  intros Hctx Hnode. unfold List. rewrite Hctx.
  unfold bind. rewrite Hnode. reflexivity.
Qed.

(** C2 (evaluation of the code): listing [missing] in the sample snapshot,
    whose root has no child of that name, neither returns
    [fs.ErrorDirNotFound] nor any entries; it panics. *)
Theorem List_missing_directory_panics :
  GetNodeAtPath (Some SampleCourse.snapshot) ["missing"] SampleCourse.idle
  = Done (None, SampleCourse.idle)
  /\ List (SampleCourse.mounted false (Some SampleCourse.snapshot))
          context.Background "missing" SampleCourse.idle
     = Panic "invalid memory address or nil pointer dereference".
Proof. split; reflexivity. Qed.

(** ** Write-class operations *)

(** C3 as stated fails: [Object.SetModTime] does not return
    [fs.ErrorPermissionDenied]. *)
Lemma write_calls_not_all_PermissionDenied :
  ~ (forall (c : WriteCall) (s : St),
       perform c s = Done (Some fs.ErrorPermissionDenied, s)).
Proof.
  intros H.
  specialize (H (CallSetModTime SampleCourse.anObject context.Background 0%Z)
                SampleCourse.idle).
  discriminate H.
Qed.

(** C3 (amended): every write-class call returns at once, without a
    request to the server and with the state as it was; the error is
    [fs.ErrorPermissionDenied] for the methods of [Fs] (Put, Mkdir, Rmdir,
    Purge, Copy, Move, DirMove) and [fs.ErrorNotImplemented] for the
    methods of [Object] (SetModTime, Update, Remove). *)
Theorem write_calls_rejected_without_request (c : WriteCall) (s : St) :
  perform c s
  = Done (Some (if onFs c then fs.ErrorPermissionDenied
                else fs.ErrorNotImplemented), s).
Proof. destruct c; reflexivity. Qed.

(** A read, for contrast, does reach the server. *)
Lemma Object_Open_sends_request :
  exists e s',
    Object_Open SampleCourse.anObject context.Background SampleCourse.idle
    = Done (Err e, s')
    /\ requests s' = ["file-refs/n/content"].
Proof. do 2 eexists; split; [vm_compute; reflexivity | reflexivity]. Qed.

(** ** The root folder of a course *)

(** [find] returns the first element that passes the test. *)
Lemma find_first {A} (p : A -> bool) (l : list A) (x : A) :
  find p l = Some x ->
  exists i,
    nth_error l i = Some x
    /\ p x = true
    /\ forall j y, j < i -> nth_error l j = Some y -> p y = false.
Proof.
  induction l as [|a l IH]; cbn; [discriminate|].
  destruct (p a) eqn:Pa.
  - intros [= ->]. exists 0. repeat split; auto. intros j y Hj. lia.
  - intros H. destruct (IH H) as (i & Hi & Px & Hbefore).
    exists (S i). repeat split; auto.
    intros [|j] y Hj; cbn.
    + intros [= <-]. exact Pa.
    + apply Hbefore. lia.
Qed.

Lemma find_none_iff {A} (p : A -> bool) (l : list A) :
  find p l = None <-> Forall (fun x => p x = false) l.
Proof.
  induction l as [|a l IH]; cbn.
  - split; auto.
  - destruct (p a) eqn:Pa; split.
    + discriminate.
    + intros H. inversion H; congruence.
    + intros H. constructor; [exact Pa | apply IH, H].
    + intros H. inversion H; subst. apply IH. assumption.
Qed.

Lemma isRootFolder_spec (e : StudIPFoldersData.t) :
  isRootFolder e = true
  <-> StudIPFoldersData.FolderType (StudIPFoldersData.Attributes e)
      = "RootFolder".
Proof. unfold isRootFolder. apply String.eqb_eq. Qed.

Lemma isRootFolder_false (e : StudIPFoldersData.t) :
  isRootFolder e = false
  <-> StudIPFoldersData.FolderType (StudIPFoldersData.Attributes e)
      <> "RootFolder".
Proof. unfold isRootFolder. apply String.eqb_neq. Qed.

(** C7: once the folder listing of the course is decoded,
    [RetrieveRootFolderID] fails with its own "response doesn't contain a
    RootFolder" error exactly when no entry of the listing has the folder
    type [RootFolder]; when some entry has it, the call returns the
    identifier of the first such entry. *)
Theorem RetrieveRootFolderID_root_entry
    (f : Fs) (ctx : context.Context) (s s' : St)
    (responseJSON : StudIPFolders.t) :
  context.Err ctx = None ->
  rest.CallJSON (client f) ("courses/" ++ CourseID (opt f) ++ "/folders")
                rest.asFolders s
  = Done (Ok responseJSON, s') ->
  let data := StudIPFolders.Data responseJSON in
  let folderType e :=
    StudIPFoldersData.FolderType (StudIPFoldersData.Attributes e) in
  (RetrieveRootFolderID f ctx s
   = Done (Err (errors_New "response doesn't contain a RootFolder"), s')
   <-> Forall (fun e => folderType e <> "RootFolder") data)
  /\ (forall e, In e data -> folderType e = "RootFolder" ->
      exists i e0,
        nth_error data i = Some e0
        /\ folderType e0 = "RootFolder"
        /\ (forall j e', j < i -> nth_error data j = Some e' ->
                         folderType e' <> "RootFolder")
        /\ RetrieveRootFolderID f ctx s
           = Done (Ok (StudIPFoldersData.ID e0), s')).
Proof.
  intros Hctx Hcall data folderType.
  assert (Hrun : RetrieveRootFolderID f ctx s
                 = match find isRootFolder data with
                   | None =>
                       Done (Err (errors_New
                                    "response doesn't contain a RootFolder"), s')
                   | Some e => Done (Ok (StudIPFoldersData.ID e), s')
                   end).
  { unfold RetrieveRootFolderID. rewrite Hctx. unfold bind.
    rewrite Hcall. fold data. destruct (find isRootFolder data); reflexivity. }
  split.
  - rewrite Hrun. split.
    + destruct (find isRootFolder data) eqn:E; [discriminate|].
      intros _. apply find_none_iff in E.
      eapply Forall_impl; [|exact E].
      intros e He. apply isRootFolder_false, He.
    + intros Hall.
      destruct (find isRootFolder data) as [e|] eqn:E; [|reflexivity].
      apply find_some in E. destruct E as [Hin Hroot].
      rewrite Forall_forall in Hall.
      apply isRootFolder_spec in Hroot. elim (Hall e Hin Hroot).
  - intros e Hin Hroot. rewrite Hrun.
    destruct (find isRootFolder data) as [e0|] eqn:E.
    + destruct (find_first _ _ E) as (i & Hi & Hroot0 & Hbefore).
      exists i, e0. repeat split; auto.
      * apply isRootFolder_spec, Hroot0.
      * intros j e' Hj Hnth. apply isRootFolder_false. eauto.
    + apply find_none_iff in E. rewrite Forall_forall in E.
      apply isRootFolder_spec in Hroot. rewrite (E e Hin) in Hroot.
      discriminate.
Qed.

Lemma RetrieveRootFolderID_root_entry_witness :
  let f := SampleCourse.mounted false None in
  let listing :=
    {| StudIPFolders.Meta := SampleCourse.page;
       StudIPFolders.Data :=
         [SampleCourse.folderRecord "StandardFolder" "x" "other";
          SampleCourse.folderRecord "RootFolder" "r" ""] |} in
  context.Err context.Background = None
  /\ rest.CallJSON (client f) ("courses/" ++ CourseID (opt f) ++ "/folders")
                   rest.asFolders SampleCourse.idle
     = Done (Ok listing,
             {| requests := ["courses/c1/folders"]; blocked := 0 |})
  /\ RetrieveRootFolderID f context.Background SampleCourse.idle
     = Done (Ok "r", {| requests := ["courses/c1/folders"]; blocked := 0 |}).
Proof.
  intros f listing.
  assert (Hctx : context.Err context.Background = None) by reflexivity.
  assert (Hcall :
            rest.CallJSON (client f)
                          ("courses/" ++ CourseID (opt f) ++ "/folders")
                          rest.asFolders SampleCourse.idle
            = Done (Ok listing,
                    {| requests := ["courses/c1/folders"]; blocked := 0 |}))
    by reflexivity.
  split; [exact Hctx | split; [exact Hcall |]].
  destruct (RetrieveRootFolderID_root_entry f context.Background
              SampleCourse.idle Hctx Hcall) as [_ Hsome].
  destruct (Hsome (SampleCourse.folderRecord "RootFolder" "r" ""))
    as (i & e0 & Hnth & Hroot & _ & Hrun).
  - right; left; reflexivity.
  - reflexivity.
  - rewrite Hrun. destruct i as [|[|i]]; cbn in Hnth.
    + injection Hnth as <-. discriminate Hroot.
    + injection Hnth as <-. reflexivity.
    + destruct i; discriminate Hnth.
Defined.

(** ** Initialisation under a non-empty root *)

Lemma bind_ext {A B} (m1 m2 : M A) (k1 k2 : A -> M B) :
  (forall s, m1 s = m2 s) ->
  (forall a s, k1 a s = k2 a s) ->
  forall s, bind m1 k1 s = bind m2 k2 s.
Proof.
  intros Hm Hk s. unfold bind. rewrite Hm.
  destruct (m2 s) as [[a s']| |]; auto.
Qed.

Lemma spawn_ext (task1 task2 : Node -> M (result Node)) :
  (forall child s, task1 child s = task2 child s) ->
  forall children s, spawn task1 children s = spawn task2 children s.
Proof.
  intros Htask children.
  induction children as [|child rest IH]; intros s; cbn; [reflexivity|].
  apply bind_ext; [apply Htask|].
  intros r s1. apply bind_ext; [apply IH | reflexivity].
Qed.

(** The build consults [f] for its client only. *)
Lemma FillFolderNode_client (f f' : Fs) (ctx : context.Context)
    (sched : Sched) :
  client f = client f' ->
  forall fuel folderNode s,
    FillFolderNode fuel f ctx sched folderNode s
    = FillFolderNode fuel f' ctx sched folderNode s.
Proof.
  intros Hclient fuel.
  induction fuel as [|fuel IH]; intros folderNode s; cbn [FillFolderNode];
    [reflexivity|].
  destruct (context.Err ctx) eqn:Hctx; [reflexivity|].
  destruct (negb (IsDir folderNode)); [reflexivity|].
  revert s. apply bind_ext.
  { intros s. unfold RetrieveFoldersOfFolder. rewrite Hclient. reflexivity. }
  intros [folders|e] s; [|reflexivity].
  cbv zeta. revert s. apply bind_ext.
  { intros s. apply spawn_ext. apply IH. }
  intros outs. apply bind_ext; [reflexivity|].
  intros [e|]; [reflexivity|].
  apply bind_ext; [|reflexivity].
  intros s. unfold RetrieveFilesOfFolder. rewrite Hclient. reflexivity.
Qed.

Lemma GetCourseFileTree_client (f f' : Fs) (ctx : context.Context)
    (sched : Sched) :
  client f = client f' ->
  forall fuel rootFolderID s,
    GetCourseFileTree fuel f ctx sched rootFolderID s
    = GetCourseFileTree fuel f' ctx sched rootFolderID s.
Proof.
  intros Hclient fuel rootFolderID s. unfold GetCourseFileTree.
  destruct (context.Err ctx); [reflexivity|].
  apply FillFolderNode_client, Hclient.
Qed.

(** C10: with a non-empty root, [NewFs] stores as root node whatever
    [GetNodeAtPath] returns for the parent directory of that root in the
    snapshot just built, nil included, and reports success; for the root
    [missing/x] on the sample course the stored root node is nil and no
    error is returned. *)
Theorem NewFs_reroots_unchecked :
  (forall (host : Host) (fuel : nat) (sched : Sched) (ctx : context.Context)
          (name root : string) (m : string -> option string)
          (s s' : St) (f0 : Fs) (node : option Node),
      root <> "" ->
      NewFs host fuel sched ctx name "" m s = Done (Ok f0, s') ->
      GetNodeAtPath (rootNode f0) (splitPath (filepath.Dir root)) s'
      = Done (node, s') ->
      exists f,
        NewFs host fuel sched ctx name root m s = Done (Ok f, s')
        /\ rootNode f = node)
  /\ (exists f s',
        NewFs (SampleCourse.host false) 3 SampleCourse.inOrder
              context.Background "studip" "missing/x" SampleCourse.config
              SampleCourse.idle
        = Done (Ok f, s')
        /\ rootNode f = None).
Proof.
  split.
  - intros host fuel sched ctx name root m s s' f0 node Hroot H0 Hnode.
    apply String.eqb_neq in Hroot.
    unfold NewFs in *. rewrite Hroot.
    destruct (context.Err ctx) eqn:Hctx; [discriminate|].
    destruct (CourseID (configstruct_Set m) =? ""); [discriminate|].
    destruct (url_Parse host (BaseURL (configstruct_Set m))) as [base|];
      [|discriminate].
    unfold bind in *.
    destruct (obscure_MustReveal host (Password (configstruct_Set m)) s)
      as [[password s1]| |]; try discriminate.
    unfold TestConnection in *. cbn [client opt] in *. rewrite Hctx in *.
    unfold bind in *.
    destruct (rest.Call _ _ s1) as [[res s2]| |]; try discriminate.
    destruct res as [res|e]; [|discriminate].
    destruct (rest.asCourses (rest.Body res)) as [responseJSON|];
      [|discriminate].
    destruct (negb _); [discriminate|].
    unfold ret in H0 at 1. unfold ret at 1.
    unfold RetrieveRootFolderID in *. cbn [client opt] in *. rewrite Hctx in *.
    unfold bind in *.
    destruct (rest.CallJSON _ _ _ s2) as [[folders s3]| |]; try discriminate.
    destruct folders as [folders|e]; [|discriminate].
    destruct (find isRootFolder _) as [e|]; [|discriminate].
    unfold ret in H0 at 1. unfold ret at 1.
    match type of H0 with
    | match GetCourseFileTree _ ?fa _ _ _ _ with _ => _ end = _ =>
        match goal with
        | |- context [GetCourseFileTree _ ?fb _ _ _ _] =>
            rewrite (@GetCourseFileTree_client fb fa ctx sched eq_refl)
        end;
        destruct (GetCourseFileTree fuel fa ctx sched (StudIPFoldersData.ID e) s3)
          as [[tree s4]| |]; try discriminate
    end.
    destruct tree as [tree|e1]; [|discriminate].
    cbn in H0. injection H0 as <- <-. cbn in Hnode. cbn.
    rewrite Hnode. eexists. split; reflexivity.
  - do 2 eexists. split; [vm_compute; reflexivity | reflexivity].
Qed.

Lemma NewFs_reroots_unchecked_witness :
  "missing/x" <> ""
  /\ NewFs (SampleCourse.host false) 3 SampleCourse.inOrder
           context.Background "studip" "" SampleCourse.config
           SampleCourse.idle
     = Done (Ok (SampleCourse.mounted false (Some SampleCourse.snapshot)),
             SampleCourse.afterBuild)
  /\ GetNodeAtPath (Some SampleCourse.snapshot)
                   (splitPath (filepath.Dir "missing/x"))
                   SampleCourse.afterBuild
     = Done (None, SampleCourse.afterBuild)
  /\ exists f,
       NewFs (SampleCourse.host false) 3 SampleCourse.inOrder
             context.Background "studip" "missing/x" SampleCourse.config
             SampleCourse.idle
       = Done (Ok f, SampleCourse.afterBuild)
       /\ rootNode f = None.
Proof.
  assert (Hroot : "missing/x" <> "") by discriminate.
  assert (H0 : NewFs (SampleCourse.host false) 3 SampleCourse.inOrder
                     context.Background "studip" "" SampleCourse.config
                     SampleCourse.idle
               = Done (Ok (SampleCourse.mounted false
                             (Some SampleCourse.snapshot)),
                       SampleCourse.afterBuild))
    by (vm_compute; reflexivity).
  assert (Hnode : GetNodeAtPath
                    (rootNode (SampleCourse.mounted false
                                 (Some SampleCourse.snapshot)))
                    (splitPath (filepath.Dir "missing/x"))
                    SampleCourse.afterBuild
                  = Done (None, SampleCourse.afterBuild))
    by (vm_compute; reflexivity).
  split; [exact Hroot | split; [exact H0 | split; [exact Hnode |]]].
  exact (proj1 NewFs_reroots_unchecked _ _ _ _ _ _ _ _ _ _ _ Hroot H0 Hnode).
Defined.

(** ** Order of a listing *)

Lemma ascii_compare_refl (c : ascii) : Ascii.compare c c = Eq.
Proof. unfold Ascii.compare. apply N.compare_refl. Qed.

Lemma ascii_compare_Lt_trans (a b c : ascii) :
  Ascii.compare a b = Lt -> Ascii.compare b c = Lt -> Ascii.compare a c = Lt.
Proof.
  unfold Ascii.compare. rewrite !N.compare_lt_iff. apply N.lt_trans.
Qed.

Lemma string_compare_refl (s : string) : String.compare s s = Eq.
Proof.
  induction s as [|c s IH]; cbn; [reflexivity|].
  rewrite ascii_compare_refl. exact IH.
Qed.

Lemma string_compare_Lt_trans :
  forall a b c : string,
    String.compare a b = Lt -> String.compare b c = Lt ->
    String.compare a c = Lt.
Proof.
  induction a as [|x a IH]; intros [|y b] [|z c]; cbn;
    try discriminate; auto.
  destruct (Ascii.compare x y) eqn:Exy; try discriminate;
    destruct (Ascii.compare y z) eqn:Eyz; try discriminate; intros Hab Hbc.
  - apply Ascii.compare_eq_iff in Exy, Eyz. subst.
    rewrite ascii_compare_refl. eauto.
  - apply Ascii.compare_eq_iff in Exy. subst. rewrite Eyz. reflexivity.
  - apply Ascii.compare_eq_iff in Eyz. subst. rewrite Exy. reflexivity.
  - rewrite (ascii_compare_Lt_trans _ _ _ Exy Eyz). reflexivity.
Qed.

(** [a <= b] on strings, byte by byte. *)
Lemma string_le_trans (a b c : string) :
  String.compare a b <> Gt -> String.compare b c <> Gt ->
  String.compare a c <> Gt.
Proof.
  intros Hab Hbc.
  destruct (String.compare a b) eqn:Eab; [| |congruence].
  - apply String.compare_eq_iff in Eab. subst. exact Hbc.
  - destruct (String.compare b c) eqn:Ebc; [| |congruence].
    + apply String.compare_eq_iff in Ebc. subst. rewrite Eab. discriminate.
    + rewrite (string_compare_Lt_trans _ _ _ Eab Ebc). discriminate.
Qed.

Section DirEntriesOrder.
Context {E : Type} `{fs.DirEntry E}.

Lemma CompareDirEntries_antisym (a b : E) :
  fs.CompareDirEntries a b = (- fs.CompareDirEntries b a)%Z.
Proof.
  unfold fs.CompareDirEntries.
  rewrite (String.compare_antisym (fs.Remote b) (fs.Remote a)).
  rewrite (String.compare_antisym (fs.DirEntryType b) (fs.DirEntryType a)).
  destruct (String.compare (fs.Remote a) (fs.Remote b));
    destruct (String.compare (fs.DirEntryType a) (fs.DirEntryType b));
    reflexivity.
Qed.

Lemma CompareDirEntries_le_iff (a b : E) :
  (fs.CompareDirEntries a b <= 0)%Z
  <-> String.compare (fs.Remote a) (fs.Remote b) = Lt
      \/ (String.compare (fs.Remote a) (fs.Remote b) = Eq
          /\ String.compare (fs.DirEntryType a) (fs.DirEntryType b) <> Gt).
Proof.
  unfold fs.CompareDirEntries.
  destruct (String.compare (fs.Remote a) (fs.Remote b));
    destruct (String.compare (fs.DirEntryType a) (fs.DirEntryType b));
    split; intros Hle; try lia; auto;
    try (right; split; [reflexivity | discriminate]);
    destruct Hle as [Hle | [Hle Hne]]; congruence.
Qed.

Lemma CompareDirEntries_le_trans (a b c : E) :
  (fs.CompareDirEntries a b <= 0)%Z ->
  (fs.CompareDirEntries b c <= 0)%Z ->
  (fs.CompareDirEntries a c <= 0)%Z.
Proof.
  rewrite !CompareDirEntries_le_iff.
  intros [Hab | [Hab Tab]] [Hbc | [Hbc Tbc]].
  - left. eapply string_compare_Lt_trans; eauto.
  - apply String.compare_eq_iff in Hbc. rewrite <- Hbc. auto.
  - apply String.compare_eq_iff in Hab. rewrite Hab. auto.
  - right. apply String.compare_eq_iff in Hab, Hbc.
    rewrite Hab, Hbc. split; [apply string_compare_refl|].
    eapply string_le_trans; eauto.
Qed.

(** An ordered pair of entries has its remotes in byte order. *)
Lemma CompareDirEntries_le_remote (a b : E) :
  (fs.CompareDirEntries a b <= 0)%Z ->
  String.leb (fs.Remote a) (fs.Remote b) = true.
Proof.
  rewrite CompareDirEntries_le_iff. unfold String.leb.
  intros [-> | [-> _]]; reflexivity.
Qed.

Lemma Less_false_iff (a b : E) :
  fs.Less b a = false <-> (fs.CompareDirEntries a b <= 0)%Z.
Proof.
  unfold fs.Less. rewrite Z.ltb_ge.
  rewrite (CompareDirEntries_antisym a b). lia.
Qed.

Lemma Less_asym (a b : E) : fs.Less a b = true -> fs.Less b a = false.
Proof.
  unfold fs.Less. rewrite Z.ltb_lt, Z.ltb_ge.
  rewrite (CompareDirEntries_antisym a b). lia.
Qed.
End DirEntriesOrder.

Section SliceSorts.
Context {A : Type} (less : A -> A -> bool).

(** [a] may stand before [b] in the sorted slice. *)
Let le (a b : A) : Prop := less b a = false.

Hypothesis less_asym : forall a b, less a b = true -> less b a = false.
Hypothesis le_trans : forall a b c, le a b -> le b c -> le a c.

Lemma sink_Permutation (x : A) (prefixRev : list A) :
  Permutation (sort.sink less x prefixRev) (x :: prefixRev).
Proof.
  induction prefixRev as [|y rest IH]; cbn; [reflexivity|].
  destruct (less x y); [|reflexivity].
  rewrite IH. apply perm_swap.
Qed.

Lemma sinks_Permutation (data : list A) :
  forall prefixRev,
    Permutation (fold_left (fun p x => sort.sink less x p) data prefixRev)
                (data ++ prefixRev).
Proof.
  induction data as [|x data IH]; intros prefixRev; cbn; [reflexivity|].
  rewrite IH. rewrite sink_Permutation.
  symmetry. apply Permutation_middle.
Qed.

Lemma Slice_Permutation (data : list A) :
  Permutation data (sort.Slice less data).
Proof.
  unfold sort.Slice. rewrite <- Permutation_rev.
  rewrite sinks_Permutation. rewrite app_nil_r. reflexivity.
Qed.

Lemma sink_sorted (x : A) (prefixRev : list A) :
  StronglySorted (fun later earlier => le earlier later) prefixRev ->
  StronglySorted (fun later earlier => le earlier later)
                 (sort.sink less x prefixRev).
Proof.
  induction prefixRev as [|y rest IH]; cbn; intros Hs.
  - repeat constructor.
  - apply StronglySorted_inv in Hs. destruct Hs as [Hrest Hy].
    destruct (less x y) eqn:Hxy.
    + constructor; [apply IH, Hrest|].
      eapply Permutation_Forall;
        [apply Permutation_sym, sink_Permutation|].
      constructor; [apply less_asym, Hxy | exact Hy].
    + constructor; [constructor; assumption|].
      constructor; [exact Hxy|].
      eapply Forall_impl; [|exact Hy].
      intros e He. exact (le_trans He Hxy).
Qed.

Lemma sinks_sorted (data : list A) :
  forall prefixRev,
    StronglySorted (fun later earlier => le earlier later) prefixRev ->
    StronglySorted (fun later earlier => le earlier later)
      (fold_left (fun p x => sort.sink less x p) data prefixRev).
Proof.
  induction data as [|x data IH]; intros prefixRev Hs; cbn; [exact Hs|].
  apply IH, sink_sorted, Hs.
Qed.

Lemma StronglySorted_snoc (R : A -> A -> Prop) (l : list A) (x : A) :
  StronglySorted R l -> Forall (fun e => R e x) l ->
  StronglySorted R (l ++ [x]).
Proof.
  induction l as [|a l IH]; cbn; intros Hs Hx.
  - repeat constructor.
  - apply StronglySorted_inv in Hs. destruct Hs as [Hl Ha].
    inversion Hx; subst.
    constructor; [apply IH; assumption|].
    apply Forall_app. split; [exact Ha | repeat constructor; assumption].
Qed.

Lemma StronglySorted_rev (R : A -> A -> Prop) (l : list A) :
  StronglySorted (fun a b => R b a) l -> StronglySorted R (rev l).
Proof.
  induction l as [|a l IH]; cbn; intros Hs; [constructor|].
  apply StronglySorted_inv in Hs. destruct Hs as [Hl Ha].
  apply StronglySorted_snoc; [apply IH, Hl|].
  apply Forall_rev. exact Ha.
Qed.

(** [sort.Slice] leaves the slice ordered: no element is less than one
    before it. *)
Lemma Slice_sorted (data : list A) : StronglySorted le (sort.Slice less data).
Proof.
  unfold sort.Slice. apply StronglySorted_rev.
  apply sinks_sorted. constructor.
Qed.

(** Where no two elements compare equal, the ordered permutation of a
    slice is unique: any correct sort returns what [sort.Slice] does. *)
Lemma sorted_permutation_unique (l1 : list A) :
  forall l2,
    Permutation l1 l2 ->
    StronglySorted le l1 -> StronglySorted le l2 ->
    (forall a b, In a l1 -> In b l1 -> le a b -> le b a -> a = b) ->
    l1 = l2.
Proof.
  induction l1 as [|a l1 IH]; intros l2 Hp Hs1 Hs2 Hanti.
  - apply Permutation_nil in Hp. subst. reflexivity.
  - destruct l2 as [|b l2].
    + apply Permutation_sym, Permutation_nil in Hp. discriminate.
    + apply StronglySorted_inv in Hs1, Hs2.
      destruct Hs1 as [Hs1 Ha], Hs2 as [Hs2 Hb].
      rewrite Forall_forall in Ha, Hb.
      assert (Hab : a = b).
      { assert (Hina : In a (b :: l2))
          by (eapply Permutation_in; [exact Hp | left; reflexivity]).
        assert (Hinb : In b (a :: l1))
          by (eapply Permutation_in;
              [apply Permutation_sym, Hp | left; reflexivity]).
        destruct Hina as [-> | Hina]; [reflexivity|].
        destruct Hinb as [-> | Hinb]; [reflexivity|].
        apply Hanti; [left; reflexivity | right; exact Hinb | auto | auto]. }
      subst b. f_equal.
      apply IH; auto.
      * eapply Permutation_cons_inv; exact Hp.
      * intros x y Hx Hy. apply Hanti; right; assumption.
Qed.
End SliceSorts.

Section SliceStable.
Context {A : Type} (less : A -> A -> bool) (class : A -> bool).

(** The new element never moves past a member of its own class. *)
Hypothesis passes :
  forall x y, less x y = true -> class x = true -> class y = false.

Lemma sink_filter (x : A) (prefixRev : list A) :
  filter class (sort.sink less x prefixRev)
  = if class x then x :: filter class prefixRev else filter class prefixRev.
Proof.
  induction prefixRev as [|y rest IH]; cbn.
  - destruct (class x); reflexivity.
  - destruct (less x y) eqn:Hxy; cbn.
    + rewrite IH. destruct (class x) eqn:Hx.
      * rewrite (passes Hxy Hx). reflexivity.
      * reflexivity.
    + destruct (class x); reflexivity.
Qed.

Lemma sinks_filter (data : list A) :
  forall prefixRev,
    filter class (fold_left (fun p x => sort.sink less x p) data prefixRev)
    = (rev (filter class data) ++ filter class prefixRev)%list.
Proof.
  induction data as [|x data IH]; intros prefixRev; cbn; [reflexivity|].
  rewrite IH, sink_filter.
  destruct (class x); cbn; [|reflexivity].
  rewrite <- app_assoc. reflexivity.
Qed.

(** The insertion sort keeps the members of a class in their order. *)
Lemma Slice_stable (data : list A) :
  filter class (sort.Slice less data) = filter class data.
Proof.
  unfold sort.Slice. rewrite filter_rev, sinks_filter.
  cbn. rewrite app_nil_r. apply rev_involutive.
Qed.
End SliceStable.

Lemma Less_passes_tied (k x y : Entry) :
  fs.Less x y = true -> tied k x = true -> tied k y = false.
Proof.
  unfold tied, fs.Less. rewrite Z.ltb_lt, Z.eqb_eq, Z.eqb_neq.
  intros Hxy Hxk Hyk.
  assert (Hyx : (fs.CompareDirEntries y x <= 0)%Z).
  { apply CompareDirEntries_le_trans with (b := k); [lia|].
    rewrite (CompareDirEntries_antisym k x). lia. }
  rewrite (CompareDirEntries_antisym y x) in Hyx. lia.
Qed.

Lemma StronglySorted_impl_le {A} (R1 R2 : A -> A -> Prop) (l : list A) :
  (forall a b, R1 a b -> R2 a b) ->
  StronglySorted R1 l -> StronglySorted R2 l.
Proof.
  intros Himpl Hs. induction Hs as [|a l Hs IH Ha]; constructor; auto.
  eapply Forall_impl; [|exact Ha]. intros b. apply Himpl.
Qed.

(** The entry loop of [List] projects the children one by one, in their
    order. *)
Lemma entry_loop (g : Node -> Entry) (children : list Node) :
  forall entries,
    fold_left (fun entries entry => (entries ++ [g entry])%list)
              children entries
    = (entries ++ map g children)%list.
Proof.
  induction children as [|c children IH]; intros entries; cbn.
  - symmetry. apply app_nil_r.
  - rewrite IH, <- app_assoc. reflexivity.
Qed.

(** A successful [List]: the path resolved to a directory node, and the
    entries are its projected children after [sort.Slice]. *)
Lemma List_returns_entries (f : Fs) (ctx : context.Context) (dir : string)
    (s s' : St) (entries : list Entry) :
  List f ctx dir s = Done (Ok entries, s') ->
  exists node,
    GetNodeAtPath (rootNode f) (strings.Split dir os.PathSeparator) s
    = Done (Some node, s')
    /\ IsDir node = true
    /\ entries
       = sort.Slice fs.Less (map (projectEntry f dir) (Children node)).
Proof.
  unfold List. destruct (context.Err ctx); [discriminate|].
  unfold bind.
  destruct (GetNodeAtPath _ _ s) as [[[node|] s1]| |]; cbn; try discriminate.
  destruct (IsDir node) eqn:Hdir; cbn; [|discriminate].
  rewrite entry_loop. cbn. intros [= <- <-].
  exists node. auto.
Qed.

(** C4 as stated fails: the listing of a folder with the children [a] and
    [B] comes out as [B], [a], which is not ascending once case is
    folded. *)
Lemma List_not_case_insensitive :
  ~ (forall (f : Fs) (ctx : context.Context) (dir : string) (s s' : St)
            (entries : list Entry),
       List f ctx dir s = Done (Ok entries, s') ->
       Sorted caseInsensitiveLe (map fs.Remote entries)).
Proof.
  intros Hclaim.
  specialize (Hclaim (SampleCourse.mounted false (Some SampleCourse.aB))
                     context.Background "" SampleCourse.idle
                     SampleCourse.idle _ eq_refl).
  cbn in Hclaim.
  apply Sorted_inv in Hclaim. destruct Hclaim as [_ Hhd].
  apply HdRel_inv in Hhd. discriminate Hhd.
Qed.

(** C4 (amended): the entries [List] returns are the projected children
    of the directory node, ordered ascending by remote path under the
    byte-wise (case-sensitive) comparison of Go strings, a directory
    before a file of the same remote; children named [b], [A], [c] are
    listed as [A], [b], [c]; entries that compare equal are left in fetch
    order in a directory of at most twelve children, the lengths at which
    [sort.Slice] is the insertion sort. *)
Theorem List_sorted_by_remote_bytes :
  (forall (f : Fs) (ctx : context.Context) (dir : string) (s s' : St)
          (entries : list Entry),
      List f ctx dir s = Done (Ok entries, s') ->
      StronglySorted entryLe entries
      /\ StronglySorted
           (fun a b => String.leb (fs.Remote a) (fs.Remote b) = true) entries
      /\ exists node,
           GetNodeAtPath (rootNode f) (strings.Split dir os.PathSeparator) s
           = Done (Some node, s')
           /\ Permutation (map (projectEntry f dir) (Children node)) entries
           /\ (len (Children node) <= 12 ->
               forall k,
                 filter (tied k) entries
                 = filter (tied k)
                          (map (projectEntry f dir) (Children node))))
  /\ (exists entries,
        List (SampleCourse.mounted false (Some SampleCourse.bAc))
             context.Background "" SampleCourse.idle
        = Done (Ok entries, SampleCourse.idle)
        /\ map fs.Remote entries = ["A"; "b"; "c"]).
Proof.
  split.
  - intros f ctx dir s s' entries Hlist.
    apply List_returns_entries in Hlist.
    destruct Hlist as (node & Hnode & _ & ->).
    assert (Hsorted : StronglySorted entryLe
              (sort.Slice fs.Less (map (projectEntry f dir) (Children node)))).
    { eapply StronglySorted_impl_le; [|apply Slice_sorted].
      - intros a b. apply Less_false_iff.
      - apply Less_asym.
      - intros a b c. rewrite !Less_false_iff.
        apply CompareDirEntries_le_trans. }
    split; [exact Hsorted|]. split.
    + eapply StronglySorted_impl_le; [|exact Hsorted].
      intros a b. apply CompareDirEntries_le_remote.
    + exists node. split; [exact Hnode|].
      split; [apply Slice_Permutation|].
      intros _ k. apply Slice_stable. apply Less_passes_tied.
  - eexists. split; [vm_compute; reflexivity | reflexivity].
Qed.

Lemma List_sorted_by_remote_bytes_witness :
  let f := SampleCourse.mounted false (Some SampleCourse.snapshot) in
  exists entries,
    List f context.Background "" SampleCourse.idle
    = Done (Ok entries, SampleCourse.idle)
    /\ map fs.Remote entries = ["B"; "a"; "docs"; "notes.txt"]
    /\ StronglySorted entryLe entries.
Proof.
  intros f. eexists. split; [vm_compute; reflexivity|].
  split; [reflexivity|].
  refine (proj1 (proj1 List_sorted_by_remote_bytes f context.Background ""
                       SampleCourse.idle SampleCourse.idle _ _)).
  reflexivity.
Defined.

(** ** The barrier of the build *)

Lemma take_out {A} (d : A) (l : list A) :
  forall i, i < len l ->
    l = (firstn i l ++ nth i l d :: skipn (S i) l)%list.
Proof.
  unfold len. induction l as [|a l IH]; intros i Hi; cbn in Hi; [lia|].
  destruct i as [|i]; [reflexivity|].
  cbn [firstn nth skipn app]. f_equal. apply IH. lia.
Qed.

Lemma receive_some (choice : nat) (pending : list (option error)) :
  pending <> [] ->
  exists r pending',
    receive choice pending = Some (r, pending')
    /\ Permutation pending (r :: pending')
    /\ S (len pending') = len pending.
Proof.
  intros Hne. destruct pending as [|p pending]; [congruence|].
  unfold receive. set (l := p :: pending).
  assert (Hi : choice mod len l < len l)
    by (apply Nat.mod_upper_bound; discriminate).
  do 2 eexists. split; [reflexivity|].
  assert (Hl := take_out None l Hi).
  split.
  - rewrite Hl at 1. symmetry. apply Permutation_middle.
  - apply (f_equal (@len _)) in Hl. unfold len in *.
    rewrite length_app in Hl. cbn [List.length] in Hl.
    rewrite length_app. lia.
Qed.

(** When the first report the parent receives is an error, the loop
    returns it at once: of the [len pending] tasks one has been heard and
    all the others stay parked on their send. *)
Lemma drain_returns_at_first_error (length : nat) (choices : list nat)
    (pending : list (option error)) (e : error) (s : St) :
  pending <> [] ->
  nth (hd O choices mod len pending) pending None = Some e ->
  drain (S length) choices pending s
  = Done (Some e, {| requests := requests s;
                     blocked := blocked s + (len pending - 1) |}).
Proof.
  intros Hne Hnth.
  destruct (receive_some (hd O choices) Hne) as (r & pending' & Hr & _ & Hlen).
  cbn [drain]. rewrite Hr.
  assert (r = Some e) as ->.
  { destruct pending; [congruence|]. unfold receive in Hr.
    injection Hr as <- _. exact Hnth. }
  unfold bind, park, ret. cbn. do 3 f_equal. lia.
Qed.

(** The loop ends without an error only when every task has reported
    success; nothing is left parked then. *)
Lemma drain_None (length : nat) :
  forall choices pending s s',
    len pending = length ->
    drain length choices pending s = Done (None, s') ->
    Forall (eq None) pending /\ s' = s.
Proof.
  induction length as [|length IH]; intros choices pending s s' Hlen; cbn.
  - destruct pending; [|discriminate]. unfold ret. intros [= <-]. auto.
  - assert (Hne : pending <> []) by (intros ->; discriminate).
    destruct (receive_some (hd O choices) Hne)
      as (r & pending' & -> & Hperm & Hlen').
    destruct r as [err|].
    + unfold bind, park, ret. discriminate.
    + intros Hdrain. apply IH in Hdrain; [|lia].
      destruct Hdrain as [Hall ->]. split; [|reflexivity].
      eapply Permutation_Forall; [apply Permutation_sym, Hperm|].
      constructor; auto.
Qed.

Lemma drain_all_None (length : nat) :
  forall choices pending s,
    len pending = length ->
    Forall (eq None) pending ->
    drain length choices pending s = Done (None, s).
Proof.
  induction length as [|length IH]; intros choices pending s Hlen Hall; cbn.
  - reflexivity.
  - assert (Hne : pending <> []) by (intros ->; discriminate).
    destruct (receive_some (hd O choices) Hne)
      as (r & pending' & -> & Hperm & Hlen').
    assert (Hall' : Forall (eq None) (r :: pending'))
      by (eapply Permutation_Forall; [exact Hperm | exact Hall]).
    inversion Hall' as [|? ? Hr Hrest]; subst.
    apply IH; [lia | exact Hrest].
Qed.

(** C1 (evaluation of the code): the root folder of the sample course has
    two subfolders, [docs] and [B], and the fill of [B] fails.  When the
    parent hears [B] first it returns that error after one receive, and
    the task of [docs] stays parked on its send for good
    ([blocked = 1]); only when it hears [docs] first does it hear both
    ([blocked = 0]). *)
Theorem FillFolderNode_abandons_unheard_tasks :
  let f := SampleCourse.mounted true None in
  let sent :=
    ["folders/r/folders"; "folders/d/folders"; "folders/d/file-refs";
     "folders/b/folders"] in
  FillFolderNode 3 f context.Background SampleCourse.secondFirst
                 SampleCourse.rootFolder SampleCourse.idle
  = Done (Err (rest_failure "connection reset by peer"),
          {| requests := sent; blocked := 1 |})
  /\ FillFolderNode 3 f context.Background SampleCourse.inOrder
                    SampleCourse.rootFolder SampleCourse.idle
     = Done (Err (rest_failure "connection reset by peer"),
             {| requests := sent; blocked := 0 |}).
Proof. split; vm_compute; reflexivity. Qed.

(** ** Shape of the built tree *)

Lemma folder_loop (data : list StudIPFoldersData.t) :
  forall folderNode,
    fold_left (fun n folder => appendChild n (folderChild folder))
              data folderNode
    = withChildren folderNode
                   (Children folderNode ++ map folderChild data)%list.
Proof.
  induction data as [|folder data IH]; intros folderNode; cbn.
  - rewrite app_nil_r. destruct folderNode; reflexivity.
  - rewrite IH. unfold appendChild, withChildren. cbn.
    rewrite <- app_assoc. reflexivity.
Qed.

Lemma file_loop (data : list StudIPFilesData.t) :
  forall folderNode,
    fold_left (fun n file =>
                 if skipped file then n else appendChild n (fileChild file))
              data folderNode
    = withChildren folderNode
        (Children folderNode
         ++ map fileChild (filter (fun file => negb (skipped file)) data))%list.
Proof.
  induction data as [|file data IH]; intros folderNode; cbn.
  - rewrite app_nil_r. destruct folderNode; reflexivity.
  - rewrite IH. destruct (skipped file); cbn; [reflexivity|].
    unfold appendChild, withChildren. cbn.
    rewrite <- app_assoc. reflexivity.
Qed.

Lemma spawn_length (task : Node -> M (result Node)) (children : list Node) :
  forall s outs s',
    spawn task children s = Done (outs, s') -> len outs = len children.
Proof.
  induction children as [|child rest IH]; intros s outs s'; cbn.
  - unfold ret. intros [= <- _]. reflexivity.
  - unfold bind.
    destruct (task child s) as [[r s1]| |]; try discriminate.
    destruct (spawn task rest s1) as [[rs s2]| |] eqn:Hrest; try discriminate.
    unfold ret. intros [= <- _]. cbn. f_equal. eapply IH, Hrest.
Qed.

(** Every task ran the fill of its own child. *)
Lemma spawn_Forall2 (task : Node -> M (result Node)) (children : list Node) :
  forall s outs s',
    spawn task children s = Done (outs, s') ->
    Forall2 (fun child out => exists s1 s2, task child s1 = Done (out, s2))
            children outs.
Proof.
  induction children as [|child rest IH]; intros s outs s'; cbn.
  - unfold ret. intros [= <- _]. constructor.
  - unfold bind.
    destruct (task child s) as [[r s1]| |] eqn:Hchild; try discriminate.
    destruct (spawn task rest s1) as [[rs s2]| |] eqn:Hrest; try discriminate.
    unfold ret. intros [= <- _]. constructor; eauto.
Qed.

(** Tasks that succeed under one fill succeed alike under another fill
    that agrees with it on successes. *)
Lemma spawn_transfer (task1 task2 : Node -> M (result Node)) :
  (forall child s n s',
      task1 child s = Done (Ok n, s') -> task2 child s = Done (Ok n, s')) ->
  forall children s subs s',
    spawn task1 children s = Done (map Ok subs, s') ->
    spawn task2 children s = Done (map Ok subs, s').
Proof.
  intros Hagree children.
  induction children as [|child rest IH]; intros s subs s'; cbn; [auto|].
  unfold bind.
  destruct (task1 child s) as [[r s1]| |] eqn:Hchild; try discriminate.
  destruct (spawn task1 rest s1) as [[rs s2]| |] eqn:Hrest; try discriminate.
  unfold ret. intros [= Hsubs <-].
  destruct subs as [|sub subs]; [discriminate|].
  cbn in Hsubs. injection Hsubs as -> ->.
  rewrite (Hagree _ _ _ _ Hchild). rewrite (IH _ _ _ Hrest). reflexivity.
Qed.

Lemma all_reports_None (outs : list (result Node)) :
  Forall (eq None) (map report outs) -> exists subs, outs = map Ok subs.
Proof.
  induction outs as [|[n|e] outs IH]; cbn; intros Hall.
  - exists []. reflexivity.
  - inversion Hall; subst. destruct IH as [subs ->]; [assumption|].
    exists (n :: subs). reflexivity.
  - inversion Hall; discriminate.
Qed.

Lemma reports_of_Ok (subs : list Node) :
  Forall (eq None) (map report (map Ok subs)).
Proof. induction subs; cbn; constructor; auto. Qed.

Lemma filled_all_Ok (children subs : list Node) :
  len subs = len children ->
  map (fun co => filled (fst co) (snd co)) (combine children (map Ok subs))
  = subs.
Proof.
  revert subs. unfold len.
  induction children as [|c children IH]; intros [|sub subs]; cbn;
    try discriminate; auto.
  intros [= Hlen]. f_equal. apply IH, Hlen.
Qed.

(** What a successful fill of one folder consists of: both fetches
    answered, every child task succeeded, and the children of the filled
    node are the filled children followed by the kept files. *)
Lemma FillFolderNode_Ok_iff (fuel : nat) (f : Fs) (ctx : context.Context)
    (sched : Sched) (folderNode node' : Node) (s s' : St) :
  FillFolderNode (S fuel) f ctx sched folderNode s = Done (Ok node', s')
  <-> exists folders files subs s1 s2,
      context.Err ctx = None
      /\ IsDir folderNode = true
      /\ RetrieveFoldersOfFolder f ctx (Id folderNode) s
         = Done (Ok folders, s1)
      /\ spawn (FillFolderNode fuel f ctx sched)
               (Children folderNode
                ++ map folderChild (StudIPFolders.Data folders))%list s1
         = Done (map Ok subs, s2)
      /\ RetrieveFilesOfFolder f ctx (Id folderNode) s2
         = Done (Ok files, s')
      /\ node'
         = withChildren folderNode
             (subs ++ map fileChild
                          (filter (fun file => negb (skipped file))
                                  (StudIPFiles.Data files)))%list.
Proof.
  cbn [FillFolderNode]. split.
  - destruct (context.Err ctx) eqn:Hctx; [discriminate|].
    destruct (IsDir folderNode) eqn:Hdir; cbn [negb]; [|discriminate].
    unfold bind at 1.
    destruct (RetrieveFoldersOfFolder f ctx (Id folderNode) s)
      as [[[folders|e] s1]| |] eqn:Hfolders; try discriminate.
    cbv zeta. rewrite folder_loop. cbn [Children Id withChildren].
    unfold bind at 1.
    destruct (spawn _ _ s1) as [[outs s2]| |] eqn:Hspawn; try discriminate.
    unfold bind at 1.
    destruct (drain _ _ _ s2) as [[[e|] s3]| |] eqn:Hdrain; try discriminate.
    apply drain_None in Hdrain.
    2:{ unfold len. rewrite length_map. apply (spawn_length _ _ _ Hspawn). }
    destruct Hdrain as [Hall ->].
    destruct (all_reports_None _ Hall) as [subs ->].
    rewrite filled_all_Ok.
    2:{ apply spawn_length in Hspawn. unfold len in *.
        rewrite length_map in Hspawn. exact Hspawn. }
    unfold bind at 1.
    destruct (RetrieveFilesOfFolder f ctx (Id folderNode) s2)
      as [[[files|e] s3]| |] eqn:Hfiles; try discriminate.
    rewrite file_loop. cbn [Children withChildren Name Id IsDir ChDate Size
                              ContentType].
    unfold ret. intros [= <- <-].
    exists folders, files, subs, s1, s2. repeat split; auto.
  - intros (folders & files & subs & s1 & s2
            & Hctx & Hdir & Hfolders & Hspawn & Hfiles & ->).
    rewrite Hctx, Hdir. cbn [negb].
    unfold bind at 1. rewrite Hfolders.
    cbv zeta. rewrite folder_loop. cbn [Children Id withChildren].
    unfold bind at 1. rewrite Hspawn.
    unfold bind at 1. rewrite drain_all_None.
    2:{ unfold len. rewrite !length_map.
        apply spawn_length in Hspawn. unfold len in Hspawn.
        rewrite length_map in Hspawn. exact Hspawn. }
    2:{ apply reports_of_Ok. }
    rewrite filled_all_Ok.
    2:{ apply spawn_length in Hspawn. unfold len in *.
        rewrite length_map in Hspawn. exact Hspawn. }
    unfold bind at 1. rewrite Hfiles.
    rewrite file_loop. reflexivity.
Qed.

(** A fetch that answered once answers the same from any state. *)
Lemma CallJSON_fetches {A} (c : rest.Client) (path : string)
    (decode : rest.Payload -> option A) (a : A) (s s1 : St) :
  rest.CallJSON c path decode s = Done (Ok a, s1) ->
  fetches (rest.CallJSON c path decode) a.
Proof.
  unfold fetches, rest.CallJSON, rest.Call, bind, send, ret.
  destruct (c path) as [why|r]; [discriminate|].
  destruct ((rest.StatusCode r <? 200)%Z || (299 <? rest.StatusCode r)%Z);
    [discriminate|].
  destruct (decode (rest.Body r)); [|discriminate].
  intros [= <- _] t. eexists. reflexivity.
Qed.

Lemma RetrieveFoldersOfFolder_fetches (f : Fs) (ctx : context.Context)
    (folderID : string) (folders : StudIPFolders.t) (s s1 : St) :
  RetrieveFoldersOfFolder f ctx folderID s = Done (Ok folders, s1) ->
  fetches (RetrieveFoldersOfFolder f ctx folderID) folders.
Proof.
  unfold RetrieveFoldersOfFolder.
  destruct (context.Err ctx); [discriminate|]. apply CallJSON_fetches.
Qed.

Lemma RetrieveFilesOfFolder_fetches (f : Fs) (ctx : context.Context)
    (folderID : string) (files : StudIPFiles.t) (s s1 : St) :
  RetrieveFilesOfFolder f ctx folderID s = Done (Ok files, s1) ->
  fetches (RetrieveFilesOfFolder f ctx folderID) files.
Proof.
  unfold RetrieveFilesOfFolder.
  destruct (context.Err ctx); [discriminate|]. apply CallJSON_fetches.
Qed.

Lemma Forall2_spawned {X Y} (P : Node -> result Node -> Prop)
    (Q : X -> Y -> Prop) (g : X -> Node) (h : Y -> result Node) :
  (forall x y, P (g x) (h y) -> Q x y) ->
  forall xs ys, Forall2 P (map g xs) (map h ys) -> Forall2 Q xs ys.
Proof.
  intros Hpq xs.
  induction xs as [|x xs IH]; intros [|y ys] H; cbn in H;
    inversion H; subst; constructor; auto.
Qed.

(** A fill that succeeds on a node without children leaves a folder of
    the shape [Built], with the fields of the node as they were. *)
Lemma FillFolderNode_Built (f : Fs) (ctx : context.Context) (sched : Sched) :
  forall fuel folderNode node' s s',
    Children folderNode = [] ->
    FillFolderNode fuel f ctx sched folderNode s = Done (Ok node', s') ->
    Built f ctx node' /\ withChildren node' [] = folderNode.
Proof.
  induction fuel as [|fuel IH]; intros folderNode node' s s' Hnil Hfill;
    [discriminate|].
  apply FillFolderNode_Ok_iff in Hfill.
  destruct Hfill as (folders & files & subs & s1 & s2
                     & Hctx & Hdir & Hfolders & Hspawn & Hfiles & ->).
  rewrite Hnil in Hspawn. cbn [app] in Hspawn.
  split; [|destruct folderNode; cbn in Hnil; subst; reflexivity].
  apply Built_folder with (folders := folders) (files := files) (subs := subs).
  - exact Hdir.
  - eapply RetrieveFoldersOfFolder_fetches, Hfolders.
  - eapply RetrieveFilesOfFolder_fetches, Hfiles.
  - apply spawn_Forall2 in Hspawn.
    eapply Forall2_spawned; [|exact Hspawn].
    intros folder sub (t1 & t2 & Hsub). cbn beta in Hsub.
    apply IH in Hsub; [exact Hsub | reflexivity].
  - reflexivity.
Qed.

(** The order in which the reports come in has no part in a successful
    fill. *)
Lemma FillFolderNode_any_schedule (f : Fs) (ctx : context.Context)
    (sched sched' : Sched) :
  forall fuel folderNode node' s s',
    FillFolderNode fuel f ctx sched folderNode s = Done (Ok node', s') ->
    FillFolderNode fuel f ctx sched' folderNode s = Done (Ok node', s').
Proof.
  induction fuel as [|fuel IH]; intros folderNode node' s s' Hfill;
    [discriminate|].
  apply FillFolderNode_Ok_iff in Hfill. apply FillFolderNode_Ok_iff.
  destruct Hfill as (folders & files & subs & s1 & s2
                     & Hctx & Hdir & Hfolders & Hspawn & Hfiles & ->).
  exists folders, files, subs, s1, s2. repeat split; auto.
  eapply spawn_transfer; [|exact Hspawn]. intros child t n t'. apply IH.
Qed.

(** Every directory node of a built tree is built. *)
Lemma Built_inTree (f : Fs) (ctx : context.Context) (n t : Node) :
  inTree n t -> Built f ctx t -> IsDir n = true -> Built f ctx n.
Proof.
  intros Hin. induction Hin as [|c t Hc Hnc IH]; intros Ht Hdir; [exact Ht|].
  inversion Ht as [? folders files subs _ _ _ Hsubs Hchildren]; subst.
  rewrite Hchildren in Hc. apply in_app_or in Hc. destruct Hc as [Hc | Hc].
  - apply IH; [|exact Hdir].
    clear - Hsubs Hc. induction Hsubs as [|folder sub data subs [Hb _] _ IHs].
    + contradiction.
    + destruct Hc as [<- | Hc]; auto.
  - apply in_map_iff in Hc. destruct Hc as (file & <- & _).
    inversion Hnc as [Heq | c' t' Hin' _]; subst.
    + discriminate Hdir.
    + contradiction.
Qed.

(** C8: after a successful build every folder node of the tree has as
    children the nodes of its subfolder records, in the order of the
    folder response, followed by the nodes of the file records it keeps,
    in the order of the file response; and the build returns the same
    tree under every order in which the subtree tasks report. *)
Theorem build_children_in_fetch_order
    (fuel : nat) (f : Fs) (ctx : context.Context) (sched : Sched)
    (rootFolderID : string) (s s' : St) (tree : Node) :
  GetCourseFileTree fuel f ctx sched rootFolderID s = Done (Ok tree, s') ->
  (forall n, inTree n tree -> IsDir n = true ->
     exists folders files subs,
       fetches (RetrieveFoldersOfFolder f ctx (Id n)) folders
       /\ fetches (RetrieveFilesOfFolder f ctx (Id n)) files
       /\ Forall2 (fun folder sub => withChildren sub [] = folderChild folder)
                  (StudIPFolders.Data folders) subs
       /\ Children n
          = (subs ++ map fileChild
                         (filter (fun file => negb (skipped file))
                                 (StudIPFiles.Data files)))%list)
  /\ (forall sched',
        GetCourseFileTree fuel f ctx sched' rootFolderID s
        = Done (Ok tree, s')).
Proof.
  unfold GetCourseFileTree.
  destruct (context.Err ctx); [discriminate|]. intros Hfill. split.
  - intros n Hin Hdir.
    apply FillFolderNode_Built in Hfill; [|reflexivity].
    destruct Hfill as [Hbuilt _].
    pose proof (Built_inTree Hin Hbuilt Hdir) as Hn.
    inversion Hn as [? folders files subs _ Hfolders Hfiles Hsubs Hchildren];
      subst.
    exists folders, files, subs. repeat split; auto.
    eapply Forall2_impl; [|exact Hsubs]. intros folder sub [_ Heq]. exact Heq.
  - intros sched'. eapply FillFolderNode_any_schedule, Hfill.
Qed.

Lemma build_children_in_fetch_order_witness :
  let f := SampleCourse.mounted false None in
  GetCourseFileTree 3 f context.Background SampleCourse.inOrder "r"
                    SampleCourse.idle
  = Done (Ok SampleCourse.snapshot,
          {| requests := skipn 2 (requests SampleCourse.afterBuild);
             blocked := 0 |})
  /\ GetCourseFileTree 3 f context.Background SampleCourse.secondFirst "r"
                       SampleCourse.idle
     = Done (Ok SampleCourse.snapshot,
             {| requests := skipn 2 (requests SampleCourse.afterBuild);
                blocked := 0 |}).
Proof.
  intros f.
  assert (Hbuild :
            GetCourseFileTree 3 f context.Background SampleCourse.inOrder "r"
                              SampleCourse.idle
            = Done (Ok SampleCourse.snapshot,
                    {| requests := skipn 2 (requests SampleCourse.afterBuild);
                       blocked := 0 |}))
    by (vm_compute; reflexivity).
  split; [exact Hbuild|].
  exact (proj2 (build_children_in_fetch_order _ _ _ _ _ _ Hbuild)
               SampleCourse.secondFirst).
Defined.

(** ** Files that the build skips *)

(** The children of a built folder that are files are the nodes of the
    file records it keeps, in their order. *)
Lemma Built_file_children (f : Fs) (ctx : context.Context) (n : Node) :
  Built f ctx n ->
  exists files,
    fetches (RetrieveFilesOfFolder f ctx (Id n)) files
    /\ filter (fun c => negb (IsDir c)) (Children n)
       = map fileChild (filter (fun file => negb (skipped file))
                               (StudIPFiles.Data files)).
Proof.
  intros Hn.
  inversion Hn as [? folders files subs _ _ Hfiles Hsubs Hchildren]; subst.
  exists files. split; [exact Hfiles|].
  rewrite Hchildren, filter_app.
  assert (Hdirs : filter (fun c => negb (IsDir c)) subs = []).
  { clear - Hsubs.
    induction Hsubs as [|folder sub data subs [_ Heq] _ IH]; [reflexivity|].
    cbn. apply (f_equal IsDir) in Heq. cbn in Heq. rewrite Heq. exact IH. }
  rewrite Hdirs. cbn [app].
  generalize (filter (fun file => negb (skipped file))
                     (StudIPFiles.Data files)).
  intros kept. induction kept as [|file kept IH]; cbn; [reflexivity|].
  f_equal. exact IH.
Qed.

(** An object of a listing stands for a file child of the listed node. *)
Lemma List_object_is_file_child (f : Fs) (ctx : context.Context)
    (dir : string) (s s' : St) (entries : list Entry) (n : Node)
    (o : Object) :
  GetNodeAtPath (rootNode f) (strings.Split dir os.PathSeparator) s
  = Done (Some n, s') ->
  List f ctx dir s = Done (Ok entries, s') ->
  In (EObject o) entries ->
  exists c, In c (Children n) /\ IsDir c = false /\ o_id o = Id c.
Proof.
  intros Hnode Hlist Hin.
  apply List_returns_entries in Hlist.
  destruct Hlist as (node & Hnode' & _ & ->).
  rewrite Hnode in Hnode'. injection Hnode' as <-.
  eapply Permutation_in in Hin;
    [|apply Permutation_sym, Slice_Permutation].
  apply in_map_iff in Hin. destruct Hin as (c & Hproj & Hc).
  exists c. unfold projectEntry in Hproj.
  destruct (IsDir c) eqn:Hdir; [discriminate|].
  injection Hproj as <-. auto.
Qed.

(** C5: in the built tree the file children of every folder are exactly
    the nodes of the file records that are both readable and
    downloadable, in the order of the response.  A record with either
    flag false adds no child: where its identifier is its own among the
    records of the folder, no file child of the folder and no object of a
    listing of the folder has that identifier. *)
Theorem skipped_files_never_in_tree
    (fuel : nat) (f : Fs) (ctx : context.Context) (sched : Sched)
    (rootFolderID : string) (s s' : St) (tree n : Node) :
  GetCourseFileTree fuel f ctx sched rootFolderID s = Done (Ok tree, s') ->
  inTree n tree -> IsDir n = true ->
  exists files,
    fetches (RetrieveFilesOfFolder f ctx (Id n)) files
    /\ filter (fun c => negb (IsDir c)) (Children n)
       = map fileChild
             (filter (fun file =>
                        StudIPFilesData.IsReadable
                          (StudIPFilesData.Attributes file)
                        && StudIPFilesData.IsDownloadable
                             (StudIPFilesData.Attributes file))
                     (StudIPFiles.Data files))
    /\ forall file,
         In file (StudIPFiles.Data files) ->
         StudIPFilesData.IsReadable (StudIPFilesData.Attributes file) = false
         \/ StudIPFilesData.IsDownloadable (StudIPFilesData.Attributes file)
            = false ->
         (forall other,
             In other (StudIPFiles.Data files) ->
             StudIPFilesData.ID other = StudIPFilesData.ID file ->
             other = file) ->
         (forall c, In c (Children n) -> IsDir c = false ->
                    Id c <> StudIPFilesData.ID file)
         /\ (forall f' ctx' dir s1 s2 entries o,
                GetNodeAtPath (rootNode f')
                              (strings.Split dir os.PathSeparator) s1
                = Done (Some n, s2) ->
                List f' ctx' dir s1 = Done (Ok entries, s2) ->
                In (EObject o) entries ->
                o_id o <> StudIPFilesData.ID file).
Proof.
  unfold GetCourseFileTree.
  destruct (context.Err ctx); [discriminate|]. intros Hfill Hin Hdir.
  apply FillFolderNode_Built in Hfill; [|reflexivity].
  destruct Hfill as [Hbuilt _].
  pose proof (Built_inTree Hin Hbuilt Hdir) as Hn.
  destruct (Built_file_children Hn) as (files & Hfiles & Hkept).
  assert (Hsame :
            filter (fun file => negb (skipped file)) (StudIPFiles.Data files)
            = filter (fun file =>
                        StudIPFilesData.IsReadable
                          (StudIPFilesData.Attributes file)
                        && StudIPFilesData.IsDownloadable
                             (StudIPFilesData.Attributes file))
                     (StudIPFiles.Data files)).
  { apply filter_ext. intros file. unfold skipped.
    rewrite negb_orb, !negb_involutive. reflexivity. }
  exists files. split; [exact Hfiles|]. split; [congruence|].
  intros file Hfile Hflag Hunique.
  assert (Hchild : forall c, In c (Children n) -> IsDir c = false ->
                             Id c <> StudIPFilesData.ID file).
  { intros c Hc Hleaf Hid.
    assert (Hc' : In c (filter (fun c => negb (IsDir c)) (Children n)))
      by (apply filter_In; split; [exact Hc | rewrite Hleaf; reflexivity]).
    rewrite Hkept in Hc'. apply in_map_iff in Hc'.
    destruct Hc' as (other & <- & Hother).
    apply filter_In in Hother. destruct Hother as [Hother Hnot].
    rewrite (Hunique other Hother Hid) in Hnot. unfold skipped in Hnot.
    destruct Hflag as [Hflag | Hflag]; rewrite Hflag in Hnot;
      [discriminate|].
    rewrite orb_true_r in Hnot. discriminate. }
  split; [exact Hchild|].
  intros f' ctx' dir s1 s2 entries o Hnode Hlist Ho.
  destruct (@List_object_is_file_child f' ctx' dir s1 s2 entries n o
              Hnode Hlist Ho) as (c & Hc & Hleaf & ->).
  apply Hchild; assumption.
Qed.

Lemma skipped_files_never_in_tree_witness :
  let f := SampleCourse.mounted false None in
  let built := {| requests := skipn 2 (requests SampleCourse.afterBuild);
                  blocked := 0 |} in
  GetCourseFileTree 3 f context.Background SampleCourse.inOrder "r"
                    SampleCourse.idle
  = Done (Ok SampleCourse.snapshot, built)
  /\ inTree SampleCourse.snapshot SampleCourse.snapshot
  /\ IsDir SampleCourse.snapshot = true
  /\ exists files,
       fetches (RetrieveFilesOfFolder f context.Background "r") files
       /\ filter (fun c => negb (IsDir c)) (Children SampleCourse.snapshot)
          = map fileChild
                (filter (fun file =>
                           StudIPFilesData.IsReadable
                             (StudIPFilesData.Attributes file)
                           && StudIPFilesData.IsDownloadable
                                (StudIPFilesData.Attributes file))
                        (StudIPFiles.Data files)).
Proof.
  intros f built.
  assert (Hbuild :
            GetCourseFileTree 3 f context.Background SampleCourse.inOrder "r"
                              SampleCourse.idle
            = Done (Ok SampleCourse.snapshot, built))
    by (vm_compute; reflexivity).
  assert (Hin : inTree SampleCourse.snapshot SampleCourse.snapshot)
    by constructor.
  assert (Hdir : IsDir SampleCourse.snapshot = true) by reflexivity.
  split; [exact Hbuild | split; [exact Hin | split; [exact Hdir |]]].
  destruct (@skipped_files_never_in_tree _ _ _ _ _ _ _ _ _ Hbuild Hin Hdir)
    as (files & Hfiles & Hkept & _).
  exists files. split; [exact Hfiles | exact Hkept].
Defined.

(** * Further properties of the code *)

(** ** The resolver *)

(** The resolver never touches the state, from nil or not. *)
Lemma GetNodeAtPath_state (pathSplit : list string) :
  forall node s r s',
    GetNodeAtPath node pathSplit s = Done (r, s') -> s' = s.
Proof.
  induction pathSplit as [|segment rest IH]; intros node s r s'; cbn.
  - unfold ret. intros [= _ <-]. reflexivity.
  - destruct (segment =? "."); [unfold ret; intros [= _ <-]; reflexivity|].
    destruct (segment =? ""); [unfold ret; intros [= _ <-]; reflexivity|].
    unfold bind. destruct node as [n|]; cbn; [|discriminate].
    destruct (firstNamed segment (Children n)).
    + apply IH.
    + unfold ret. intros [= _ <-]. reflexivity.
Qed.

(** X1: a real first segment (neither [.] nor empty) selects the first
    child, in fetch order, whose name equals it byte for byte, and the
    walk goes on from that child; when no child has the name the result
    is nil, whatever segments follow. *)
Theorem GetNodeAtPath_first_match
    (n : Node) (segment : string) (rest : list string) (s : St) :
  segment <> "." -> segment <> "" ->
  ((forall c, In c (Children n) -> Name c <> segment) ->
   GetNodeAtPath (Some n) (segment :: rest) s = Done (None, s))
  /\ (forall i c,
        nth_error (Children n) i = Some c ->
        Name c = segment ->
        (forall j c', j < i -> nth_error (Children n) j = Some c' ->
                      Name c' <> segment) ->
        GetNodeAtPath (Some n) (segment :: rest) s
        = GetNodeAtPath (Some c) rest s).
Proof.
  intros Hdot Hempty.
  apply String.eqb_neq in Hdot, Hempty.
  cbn [GetNodeAtPath]. rewrite Hdot, Hempty. unfold bind. cbn.
  split.
  - intros Hnone.
    destruct (firstNamed segment (Children n)) as [c|] eqn:E; [|reflexivity].
    unfold firstNamed in E. apply find_some in E. destruct E as [Hin Hname].
    apply String.eqb_eq in Hname. elim (Hnone c Hin Hname).
  - intros i c Hi Hname Hbefore.
    destruct (firstNamed segment (Children n)) as [c0|] eqn:E.
    + unfold firstNamed in E.
      destruct (find_first _ _ E) as (i0 & Hi0 & Hname0 & Hbefore0).
      apply String.eqb_eq in Hname0.
      destruct (Nat.lt_trichotomy i i0) as [Hlt | [Heq | Hgt]].
      * specialize (Hbefore0 i c Hlt Hi). cbn in Hbefore0.
        apply String.eqb_neq in Hbefore0. contradiction.
      * subst i0. rewrite Hi in Hi0. injection Hi0 as <-. reflexivity.
      * elim (Hbefore i0 c0 Hgt Hi0 Hname0).
    + unfold firstNamed in E. apply find_none_iff in E.
      rewrite Forall_forall in E.
      apply nth_error_In in Hi. specialize (E c Hi). cbn in E.
      apply String.eqb_neq in E. contradiction.
Qed.

Lemma GetNodeAtPath_first_match_witness :
  let docs := SampleCourse.dir "d" "docs" [SampleCourse.leaf "p" "a.pdf" 10] in
  "docs" <> "." /\ "docs" <> ""
  /\ nth_error (Children SampleCourse.snapshot) 0 = Some docs
  /\ GetNodeAtPath (Some SampleCourse.snapshot) ["docs"; "a.pdf"]
                   SampleCourse.idle
     = GetNodeAtPath (Some docs) ["a.pdf"] SampleCourse.idle.
Proof.
  intros docs.
  assert (Hdot : "docs" <> ".") by discriminate.
  assert (Hempty : "docs" <> "") by discriminate.
  split; [exact Hdot | split; [exact Hempty | split; [reflexivity|]]].
  refine (proj2 (@GetNodeAtPath_first_match SampleCourse.snapshot "docs"
                   ["a.pdf"] SampleCourse.idle Hdot Hempty)
                0 docs eq_refl eq_refl _).
  intros j c' Hj. lia.
Defined.

(** X2: resolution composes.  Along a prefix without [.] and empty
    segments, resolving [p ++ q] from a node is resolving [q] from the
    node that [p] resolves to; where [p] resolves to nil, so does
    [p ++ q]. *)
Theorem GetNodeAtPath_app (p q : list string) :
  forall (n : Node) (s : St),
    Forall (fun segment => segment <> "." /\ segment <> "") p ->
    GetNodeAtPath (Some n) (p ++ q) s
    = match GetNodeAtPath (Some n) p s with
      | Done (Some m, _) => GetNodeAtPath (Some m) q s
      | other => other
      end.
Proof.
  induction p as [|segment p IH]; intros n s Hplain.
  - reflexivity.
  - inversion Hplain as [|? ? [Hdot Hempty] Hrest]; subst.
    apply String.eqb_neq in Hdot, Hempty.
    cbn [app GetNodeAtPath]. rewrite Hdot, Hempty. unfold bind. cbn.
    destruct (firstNamed segment (Children n)) as [child|].
    + apply IH, Hrest.
    + reflexivity.
Qed.

Lemma GetNodeAtPath_app_witness :
  Forall (fun segment => segment <> "." /\ segment <> "") ["docs"]
  /\ GetNodeAtPath (Some SampleCourse.snapshot) (["docs"] ++ ["a.pdf"])
                   SampleCourse.idle
     = Done (Some (SampleCourse.leaf "p" "a.pdf" 10), SampleCourse.idle).
Proof.
  assert (Hplain : Forall (fun segment => segment <> "." /\ segment <> "")
                          ["docs"])
    by (constructor; [split; discriminate | constructor]).
  split; [exact Hplain|].
  rewrite (@GetNodeAtPath_app ["docs"] ["a.pdf"] SampleCourse.snapshot
             SampleCourse.idle Hplain).
  reflexivity.
Defined.

(** X3: from a node that is not nil the resolver always returns, leaves
    the state as it was, and what it returns is nil or a node of the tree
    below the start node; it makes no node of its own. *)
Theorem GetNodeAtPath_stays_in_tree
    (n : Node) (pathSplit : list string) (s : St) :
  exists r,
    GetNodeAtPath (Some n) pathSplit s = Done (r, s)
    /\ forall m, r = Some m -> inTree m n.
Proof.
  destruct (GetNodeAtPath_returns pathSplit n s) as [r Hr].
  exists r. split; [exact Hr|].
  intros m ->. eapply GetNodeAtPath_inTree, Hr.
Qed.

(** From a nil node the resolver returns nil for the root-denoting
    first segments and panics on every other non-empty path. *)
Lemma GetNodeAtPath_nil (pathSplit : list string) (s : St) :
  GetNodeAtPath None pathSplit s
  = match pathSplit with
    | [] => Done (None, s)
    | segment :: _ =>
        if (segment =? ".") || (segment =? "") then Done (None, s)
        else Panic "invalid memory address or nil pointer dereference"
    end.
Proof.
  destruct pathSplit as [|segment rest]; [reflexivity|].
  cbn [GetNodeAtPath].
  destruct (segment =? "."); [reflexivity|].
  destruct (segment =? ""); reflexivity.
Qed.

(** ** Paths: [splitPath] and the parent directory of a root *)

Lemma Split_cons (p : string) (sep : ascii) :
  exists first rest, strings.Split p sep = first :: rest.
Proof.
  induction p as [|c p IH]; cbn.
  - eauto.
  - destruct (Ascii.eqb c sep); [eauto|].
    destruct IH as (first & rest & ->). eauto.
Qed.

Lemma Split_no_separator (d : string) :
  hasSeparator d = false -> strings.Split d "/"%char = [d].
Proof.
  induction d as [|c d IH]; cbn; [reflexivity|].
  unfold os.PathSeparator.
  destruct (Ascii.eqb c "/"%char); cbn; [discriminate|].
  intros Hd. rewrite (IH Hd). reflexivity.
Qed.

Lemma Split_app_separator (d b : string) :
  hasSeparator d = false ->
  strings.Split (d ++ String "/"%char b) "/"%char
  = d :: strings.Split b "/"%char.
Proof.
  induction d as [|c d IH]; cbn; [reflexivity|].
  unfold os.PathSeparator.
  destruct (Ascii.eqb c "/"%char); cbn; [discriminate|].
  intros Hd. rewrite (IH Hd). reflexivity.
Qed.

Lemma uptoLastSeparator_none (p : string) :
  hasSeparator p = false -> filepath.uptoLastSeparator p = "".
Proof.
  induction p as [|c p IH]; cbn; [reflexivity|].
  destruct (Ascii.eqb c os.PathSeparator); cbn; [discriminate|].
  intros Hp. rewrite (IH Hp). reflexivity.
Qed.

Lemma uptoLastSeparator_app (a b : string) :
  filepath.uptoLastSeparator (a ++ String "/"%char b)
  = a ++ String "/"%char (filepath.uptoLastSeparator b).
Proof.
  induction a as [|c a IH]; cbn.
  - destruct (filepath.uptoLastSeparator b); reflexivity.
  - rewrite IH. destruct a; reflexivity.
Qed.

Lemma rooted_Clean (p : string) :
  path.rooted p = true -> path.rooted (path.Clean p) = true.
Proof.
  destruct p as [|c p]; [discriminate|].
  unfold path.Clean. cbn [String.eqb path.rooted].
  intros ->. reflexivity.
Qed.

Lemma rooted_uptoLastSeparator (p : string) :
  path.rooted p = true -> path.rooted (filepath.uptoLastSeparator p) = true.
Proof.
  destruct p as [|c p]; [discriminate|]. cbn.
  intros Hc. unfold os.PathSeparator. rewrite Hc.
  destruct (filepath.uptoLastSeparator p); cbn; exact Hc.
Qed.

Lemma plainSegment_spec (d : string) :
  plainSegment d = true ->
  hasSeparator d = false
  /\ (d =? "") = false /\ (d =? ".") = false /\ (d =? "..") = false.
Proof.
  unfold plainSegment. rewrite !andb_true_iff, !negb_true_iff. tauto.
Qed.

Lemma plainSegment_not_rooted (d : string) :
  plainSegment d = true -> path.rooted d = false.
Proof.
  intros Hd. apply plainSegment_spec in Hd. destruct Hd as (Hsep & _).
  destruct d as [|c d]; [reflexivity|]. cbn in *.
  unfold os.PathSeparator in Hsep.
  destruct (Ascii.eqb c "/"%char); [discriminate | reflexivity].
Qed.

(** [path.Clean] keeps a plain segment, with or without a trailing
    separator. *)
Lemma Clean_plainSegment (d : string) :
  plainSegment d = true ->
  path.Clean d = d /\ path.Clean (d ++ "/") = d.
Proof.
  intros Hd. pose proof (plainSegment_not_rooted d Hd) as Hroot.
  destruct (plainSegment_spec d Hd) as (Hsep & Hempty & Hdot & Hdots).
  assert (Hstep : path.step false [] d = [d]).
  { unfold path.step. rewrite Hempty, Hdot, Hdots. reflexivity. }
  split; unfold path.Clean.
  - rewrite Hempty, Hroot, (Split_no_separator d Hsep).
    cbn [fold_left]. rewrite Hstep. cbn. rewrite Hempty. reflexivity.
  - assert (Hne : (d ++ "/" =? "") = false) by (destruct d; reflexivity).
    assert (Hroot' : path.rooted (d ++ "/") = false)
      by (destruct d; [discriminate | exact Hroot]).
    rewrite Hne, Hroot', (Split_app_separator d "" Hsep).
    cbn [strings.Split fold_left]. rewrite Hstep. cbn. rewrite Hempty.
    reflexivity.
Qed.

(** An absolute path never leaves the node it is resolved from:
    [splitPath] of a path that begins with a separator is empty or begins
    with the empty segment, at which the resolver stops. *)
Lemma splitPath_rooted_resolves_to_start
    (p : string) (node : option Node) :
  path.rooted p = true ->
  (splitPath p = [] \/ exists rest, splitPath p = "" :: rest)
  /\ GetNodeAtPath node (splitPath p) = ret node.
Proof.
  intros Hrooted. destruct p as [|c p]; [discriminate|].
  unfold splitPath, path.Clean. cbn [String.eqb].
  rewrite Hrooted.
  generalize (strings.Join
                (rev (fold_left (path.step true)
                                (strings.Split (String c p) "/"%char) []))
                "/").
  intros joined. destruct joined as [|x joined].
  - split; [left; reflexivity | reflexivity].
  - split; [right; eexists; reflexivity | reflexivity].
Qed.

(** The re-rooting step of [NewFs] resolves the parent directory of
    the root, not the root.  For a root without a separator, and for an
    absolute root, the step returns the node it started from; for a root
    [d/leaf] with a plain first element it resolves the single segment
    [d]. *)
Lemma reroot_path_of_root (node : option Node) (root : string) :
  (hasSeparator root = false \/ path.rooted root = true ->
   GetNodeAtPath node (splitPath (filepath.Dir root)) = ret node)
  /\ (forall d leaf,
        plainSegment d = true -> hasSeparator leaf = false ->
        root = d ++ "/" ++ leaf ->
        splitPath (filepath.Dir root) = [d]).
Proof.
  split.
  - intros [Hnone | Hrooted].
    + unfold filepath.Dir. rewrite (uptoLastSeparator_none root Hnone).
      reflexivity.
    + apply splitPath_rooted_resolves_to_start.
      unfold filepath.Dir, filepath.Clean.
      apply rooted_Clean, rooted_uptoLastSeparator, Hrooted.
  - intros d leaf Hd Hleaf ->.
    unfold filepath.Dir, filepath.Clean.
    change (d ++ "/" ++ leaf) with (d ++ String "/"%char leaf).
    rewrite uptoLastSeparator_app, (uptoLastSeparator_none leaf Hleaf).
    destruct (Clean_plainSegment d Hd) as [Hclean Hclean'].
    change (d ++ String "/"%char "") with (d ++ "/").
    rewrite Hclean'. unfold splitPath. rewrite Hclean.
    destruct (plainSegment_spec d Hd) as (Hsep & _).
    rewrite (Split_no_separator d Hsep).
    destruct (d =? "/") eqn:E; [|reflexivity].
    apply String.eqb_eq in E. subst d. discriminate Hsep.
Qed.

(** ** Listing *)

(** X4: a listing is served from the snapshot alone: whatever [List]
    returns, it has sent no request and parked no task. *)
Theorem List_leaves_state
    (f : Fs) (ctx : context.Context) (dir : string) (s s' : St)
    (r : result (list Entry)) :
  List f ctx dir s = Done (r, s') -> s' = s.
Proof.
  unfold List. destruct (context.Err ctx).
  - unfold ret. intros [= _ <-]. reflexivity.
  - unfold bind.
    destruct (GetNodeAtPath _ _ s) as [[node s1]| |] eqn:Hnode;
      try discriminate.
    apply GetNodeAtPath_state in Hnode. subst s1.
    destruct node as [n|]; cbn; [|discriminate].
    destruct (negb (IsDir n) || false); unfold ret; intros [= _ <-];
      reflexivity.
Qed.

Lemma List_leaves_state_witness :
  exists r,
    List (SampleCourse.mounted false (Some SampleCourse.snapshot))
         context.Background "docs" SampleCourse.afterBuild
    = Done (r, SampleCourse.afterBuild).
Proof.
  assert (Hrun : exists r s',
             List (SampleCourse.mounted false (Some SampleCourse.snapshot))
                  context.Background "docs" SampleCourse.afterBuild
             = Done (r, s'))
    by (do 2 eexists; vm_compute; reflexivity).
  destruct Hrun as (r & s' & Hrun). exists r.
  rewrite Hrun. rewrite (List_leaves_state _ _ _ _ Hrun). reflexivity.
Defined.

(** X5: a path that resolves to a file node is reported as a missing
    directory: [List] returns [fs.ErrorDirNotFound] and no entries. *)
Theorem List_file_is_not_a_directory
    (f : Fs) (ctx : context.Context) (dir : string) (s : St) (node : Node) :
  context.Err ctx = None ->
  GetNodeAtPath (rootNode f) (strings.Split dir os.PathSeparator) s
  = Done (Some node, s) ->
  IsDir node = false ->
  List f ctx dir s = Done (Err fs.ErrorDirNotFound, s).
Proof.
  intros Hctx Hnode Hfile. unfold List. rewrite Hctx.
  unfold bind. rewrite Hnode. cbn. rewrite Hfile. reflexivity.
Qed.

Lemma List_file_is_not_a_directory_witness :
  let f := SampleCourse.mounted false (Some SampleCourse.snapshot) in
  GetNodeAtPath (rootNode f) (strings.Split "docs/a.pdf" os.PathSeparator)
                SampleCourse.idle
  = Done (Some (SampleCourse.leaf "p" "a.pdf" 10), SampleCourse.idle)
  /\ List f context.Background "docs/a.pdf" SampleCourse.idle
     = Done (Err fs.ErrorDirNotFound, SampleCourse.idle).
Proof.
  intros f.
  assert (Hnode :
            GetNodeAtPath (rootNode f)
                          (strings.Split "docs/a.pdf" os.PathSeparator)
                          SampleCourse.idle
            = Done (Some (SampleCourse.leaf "p" "a.pdf" 10),
                    SampleCourse.idle)) by reflexivity.
  split; [exact Hnode|].
  exact (@List_file_is_not_a_directory f context.Background "docs/a.pdf"
           SampleCourse.idle _ eq_refl Hnode eq_refl).
Defined.

(** X6: on an [Fs] whose root node is nil every listing panics, the
    listing of the root included. *)
Theorem List_nil_root_panics
    (f : Fs) (ctx : context.Context) (dir : string) (s : St) :
  context.Err ctx = None ->
  rootNode f = None ->
  List f ctx dir s = Panic "invalid memory address or nil pointer dereference".
Proof.
  intros Hctx Hroot. unfold List. rewrite Hctx, Hroot.
  destruct (Split_cons dir os.PathSeparator) as (first & rest & ->).
  unfold bind. cbn [GetNodeAtPath].
  destruct (first =? "."); [reflexivity|].
  destruct (first =? ""); reflexivity.
Qed.

Lemma List_nil_root_panics_witness :
  context.Err context.Background = None
  /\ rootNode (SampleCourse.mounted false None) = None
  /\ List (SampleCourse.mounted false None) context.Background ""
          SampleCourse.idle
     = Panic "invalid memory address or nil pointer dereference".
Proof.
  split; [reflexivity | split; [reflexivity|]].
  exact (@List_nil_root_panics (SampleCourse.mounted false None)
           context.Background "" SampleCourse.idle eq_refl eq_refl).
Defined.

(** ** Fetching *)

(** Two answers of the server to one request are one answer. *)
Ltac same_reply H H' :=
  let E := fresh "E" in
  pose proof (eq_trans (eq_sym H) H') as E; injection E as <-.

(** The state after one more request. *)
Lemma Call_sends_one (c : rest.Client) (path : string) (s : St) :
  exists r,
    rest.Call c path s
    = Done (r, {| requests := (requests s ++ [path])%list;
                  blocked := blocked s |})
    /\ forall resp,
         r = Ok resp
         <-> c path = rest.Replied resp
             /\ (200 <= rest.StatusCode resp <= 299)%Z.
Proof.
  unfold rest.Call, bind, send, ret.
  destruct (c path) as [why|resp0] eqn:Hreply.
  - eexists. split; [reflexivity|].
    intros resp. split; [discriminate | intros [[=] _]].
  - destruct ((rest.StatusCode resp0 <? 200)%Z
              || (299 <? rest.StatusCode resp0)%Z) eqn:Hstatus.
    + eexists. split; [reflexivity|].
      intros resp. split; [discriminate|].
      intros [[= <-] Hrange].
      apply orb_true_iff in Hstatus. rewrite !Z.ltb_lt in Hstatus. lia.
    + eexists. split; [reflexivity|].
      apply orb_false_iff in Hstatus. rewrite !Z.ltb_ge in Hstatus.
      intros resp. split.
      * intros [= <-]. split; [reflexivity | lia].
      * intros [[= <-] _]. reflexivity.
Qed.

Lemma CallJSON_sends_one {A} (c : rest.Client) (path : string)
    (decode : rest.Payload -> option A) (s : St) :
  exists r,
    rest.CallJSON c path decode s
    = Done (r, {| requests := (requests s ++ [path])%list;
                  blocked := blocked s |})
    /\ forall a,
         r = Ok a
         <-> exists resp,
             c path = rest.Replied resp
             /\ (200 <= rest.StatusCode resp <= 299)%Z
             /\ decode (rest.Body resp) = Some a.
Proof.
  unfold rest.CallJSON, bind.
  destruct (Call_sends_one c path s) as (r & -> & Hr).
  destruct r as [resp|e].
  - destruct (proj1 (Hr resp) eq_refl) as [Hreply Hrange].
    destruct (decode (rest.Body resp)) as [a0|] eqn:Hdecode.
    + eexists. split; [reflexivity|].
      intros a. split.
      * intros [= <-]. exists resp. auto.
      * intros (resp' & Hreply' & _ & Hdecode').
        same_reply Hreply Hreply'.
        rewrite Hdecode in Hdecode'. injection Hdecode' as <-. reflexivity.
    + eexists. split; [reflexivity|].
      intros a. split; [discriminate|].
      intros (resp' & Hreply' & _ & Hdecode').
      same_reply Hreply Hreply'.
      rewrite Hdecode in Hdecode'. discriminate.
  - eexists. split; [reflexivity|].
    intros a. split; [discriminate|].
    intros (resp & Hreply & Hrange & _).
    assert (Hok : @Err rest.Response e = Ok resp)
      by (apply Hr; split; assumption).
    discriminate Hok.
Qed.

(** X7: with a live context [TestConnection] sends exactly one request,
    [courses/<course_id>], and returns nil exactly when the server
    answers it with a 2xx status and a course record whose id is the
    configured one. *)
Theorem TestConnection_one_request
    (f : Fs) (ctx : context.Context) (s : St) :
  context.Err ctx = None ->
  let URL := "courses/" ++ CourseID (opt f) in
  exists r,
    TestConnection f ctx s
    = Done (r, {| requests := (requests s ++ [URL])%list;
                  blocked := blocked s |})
    /\ (r = None
        <-> exists resp course,
            client f URL = rest.Replied resp
            /\ (200 <= rest.StatusCode resp <= 299)%Z
            /\ rest.Body resp = rest.JSONCourses course
            /\ StudIPCourses.ID (StudIPCourses.Data course)
               = CourseID (opt f)).
Proof.
  intros Hctx URL. unfold TestConnection. rewrite Hctx. fold URL.
  unfold bind.
  destruct (Call_sends_one (client f) URL s) as (r & -> & Hr).
  destruct r as [resp|e].
  - destruct (proj1 (Hr resp) eq_refl) as [Hreply Hrange].
    destruct (rest.Body resp) as [course| | |] eqn:Hbody; cbn;
      try (eexists; split; [reflexivity|];
           split; [discriminate|];
           intros (resp' & course' & Hreply' & _ & Hbody' & _);
           same_reply Hreply Hreply';
           rewrite Hbody in Hbody'; discriminate).
    destruct (StudIPCourses.ID (StudIPCourses.Data course)
              =? CourseID (opt f)) eqn:Hid; cbn.
    + eexists. split; [reflexivity|]. split; [|reflexivity].
      intros _. exists resp, course. apply String.eqb_eq in Hid. auto.
    + eexists. split; [reflexivity|]. split; [discriminate|].
      intros (resp' & course' & Hreply' & _ & Hbody' & Hid').
      same_reply Hreply Hreply'.
      rewrite Hbody in Hbody'. injection Hbody' as <-.
      apply String.eqb_neq in Hid. contradiction.
  - eexists. split; [reflexivity|]. split; [discriminate|].
    intros (resp & course & Hreply & Hrange & _).
    assert (Hok : @Err rest.Response e = Ok resp)
      by (apply Hr; split; assumption).
    discriminate Hok.
Qed.

Lemma TestConnection_one_request_witness :
  context.Err context.Background = None
  /\ TestConnection (SampleCourse.mounted false None) context.Background
                    SampleCourse.idle
     = Done (None, {| requests := ["courses/c1"]; blocked := 0 |}).
Proof.
  split; [reflexivity|].
  destruct (@TestConnection_one_request (SampleCourse.mounted false None)
              context.Background SampleCourse.idle eq_refl)
    as (r & Hrun & Hr).
  rewrite Hrun. f_equal. f_equal. apply Hr.
  do 2 eexists. split; [reflexivity|].
  split; [cbn; lia|]. split; reflexivity.
Defined.

(** X8: with a live context each of the two folder fetches sends exactly
    one request, [folders/<id>/folders] or [folders/<id>/file-refs], and
    returns the list exactly as that one answer carries it; it follows no
    paging links and asks for no further page. *)
Theorem folder_fetches_one_request
    (f : Fs) (ctx : context.Context) (folderID : string) (s : St) :
  context.Err ctx = None ->
  (exists r,
      RetrieveFoldersOfFolder f ctx folderID s
      = Done (r, {| requests :=
                      (requests s
                       ++ [("folders/" ++ folderID ++ "/folders")%string])%list;
                    blocked := blocked s |})
      /\ forall folders,
           r = Ok folders
           <-> exists resp,
               client f ("folders/" ++ folderID ++ "/folders")
               = rest.Replied resp
               /\ (200 <= rest.StatusCode resp <= 299)%Z
               /\ rest.Body resp = rest.JSONFolders folders)
  /\ (exists r,
        RetrieveFilesOfFolder f ctx folderID s
        = Done (r, {| requests :=
                        (requests s
                         ++ [("folders/" ++ folderID
                              ++ "/file-refs")%string])%list;
                      blocked := blocked s |})
        /\ forall files,
             r = Ok files
             <-> exists resp,
                 client f ("folders/" ++ folderID ++ "/file-refs")
                 = rest.Replied resp
                 /\ (200 <= rest.StatusCode resp <= 299)%Z
                 /\ rest.Body resp = rest.JSONFiles files).
Proof.
  intros Hctx.
  unfold RetrieveFoldersOfFolder, RetrieveFilesOfFolder. rewrite Hctx.
  split.
  - destruct (CallJSON_sends_one (client f)
                ("folders/" ++ folderID ++ "/folders") rest.asFolders s)
      as (r & Hrun & Hr).
    exists r. split; [exact Hrun|].
    intros folders. rewrite Hr. split.
    + intros (resp & Hreply & Hrange & Hdecode). exists resp.
      split; [exact Hreply | split; [exact Hrange |]].
      destruct (rest.Body resp); try discriminate.
      injection Hdecode as <-. reflexivity.
    + intros (resp & Hreply & Hrange & Hbody). exists resp.
      split; [exact Hreply | split; [exact Hrange |]]. rewrite Hbody. reflexivity.
  - destruct (CallJSON_sends_one (client f)
                ("folders/" ++ folderID ++ "/file-refs") rest.asFiles s)
      as (r & Hrun & Hr).
    exists r. split; [exact Hrun|].
    intros files. rewrite Hr. split.
    + intros (resp & Hreply & Hrange & Hdecode). exists resp.
      split; [exact Hreply | split; [exact Hrange |]].
      destruct (rest.Body resp); try discriminate.
      injection Hdecode as <-. reflexivity.
    + intros (resp & Hreply & Hrange & Hbody). exists resp.
      split; [exact Hreply | split; [exact Hrange |]]. rewrite Hbody. reflexivity.
Qed.

Lemma folder_fetches_one_request_witness :
  context.Err context.Background = None
  /\ exists r,
       RetrieveFilesOfFolder (SampleCourse.mounted false None)
                             context.Background "r" SampleCourse.idle
       = Done (r, {| requests := ["folders/r/file-refs"]; blocked := 0 |}).
Proof.
  split; [reflexivity|].
  destruct (proj2 (@folder_fetches_one_request
                     (SampleCourse.mounted false None) context.Background
                     "r" SampleCourse.idle eq_refl)) as (r & Hrun & _).
  exists r. exact Hrun.
Defined.

(** X9: with a live context [Object.Open] sends exactly one request,
    [file-refs/<id>/content], and returns the body exactly when the
    server answers with a status from 200 to 299; its own test of
    [StatusCode/100] rejects nothing the client has let through. *)
Theorem Object_Open_one_request
    (o : Object) (ctx : context.Context) (s : St) :
  context.Err ctx = None ->
  let URL := "file-refs/" ++ o_id o ++ "/content" in
  exists r,
    Object_Open o ctx s
    = Done (r, {| requests := (requests s ++ [URL])%list;
                  blocked := blocked s |})
    /\ forall body,
         r = Ok body
         <-> exists resp,
             client (o_fs o) URL = rest.Replied resp
             /\ (200 <= rest.StatusCode resp <= 299)%Z
             /\ rest.Body resp = body.
Proof.
  intros Hctx URL. unfold Object_Open. rewrite Hctx. fold URL.
  unfold bind.
  destruct (Call_sends_one (client (o_fs o)) URL s) as (r & -> & Hr).
  destruct r as [resp|e].
  - destruct (proj1 (Hr resp) eq_refl) as [Hreply Hrange].
    assert (Hdiv : (rest.StatusCode resp / 100 =? 2)%Z = true).
    { apply Z.eqb_eq. symmetry.
      apply (Z.div_unique (rest.StatusCode resp) 100 2
                          (rest.StatusCode resp - 200)); lia. }
    rewrite Hdiv. cbn.
    eexists. split; [reflexivity|].
    intros body. split.
    + intros [= <-]. exists resp. auto.
    + intros (resp' & Hreply' & _ & <-).
      same_reply Hreply Hreply'. reflexivity.
  - eexists. split; [reflexivity|].
    intros body. split; [discriminate|].
    intros (resp & Hreply & Hrange & _).
    assert (Hok : @Err rest.Response e = Ok resp)
      by (apply Hr; split; assumption).
    discriminate Hok.
Qed.

Lemma Object_Open_one_request_witness :
  context.Err context.Background = None
  /\ exists r,
       Object_Open SampleCourse.anObject context.Background SampleCourse.idle
       = Done (r, {| requests := ["file-refs/n/content"]; blocked := 0 |}).
Proof.
  split; [reflexivity|].
  destruct (@Object_Open_one_request SampleCourse.anObject
              context.Background SampleCourse.idle eq_refl)
    as (r & Hrun & _).
  exists r. exact Hrun.
Defined.

(** ** The barrier, once more *)

(** The loop over as many receives as there are tasks always returns; it
    sends nothing; an error it returns is one a task sent, and at least
    the task that sent it is not left parked. *)
Lemma drain_returns (length : nat) :
  forall choices pending s,
    len pending = length ->
    exists r s',
      drain length choices pending s = Done (r, s')
      /\ requests s' = requests s
      /\ blocked s <= blocked s'
      /\ (forall e, r = Some e ->
             In (Some e) pending /\ blocked s' < blocked s + len pending)
      /\ (r = None -> s' = s /\ Forall (eq None) pending).
Proof.
  induction length as [|length IH]; intros choices pending s Hlen.
  - destruct pending; [|discriminate].
    exists None, s. cbn. repeat split; auto; discriminate.
  - assert (Hne : pending <> []) by (intros ->; discriminate).
    destruct (receive_some (hd O choices) Hne)
      as (r0 & pending' & Hr0 & Hperm & Hlen').
    cbn [drain]. rewrite Hr0. destruct r0 as [err|].
    + unfold bind, park, ret. do 2 eexists. split; [reflexivity|]. cbn.
      split; [reflexivity|]. split; [lia|]. split; [|discriminate].
      intros e [= <-]. split; [|lia].
      eapply Permutation_in; [apply Permutation_sym, Hperm | left; reflexivity].
    + destruct (IH (tl choices) pending' s) as (r & s' & -> & Hreq & Hle
                                                 & Hsome & Hnone); [lia|].
      exists r, s'. split; [reflexivity|]. split; [exact Hreq|].
      split; [exact Hle|]. split.
      * intros e He. destruct (Hsome e He) as [Hin Hlt]. split; [|lia].
        eapply Permutation_in; [apply Permutation_sym, Hperm | right; exact Hin].
      * intros Hr. destruct (Hnone Hr) as [-> Hall]. split; [reflexivity|].
        eapply Permutation_Forall; [apply Permutation_sym, Hperm|].
        constructor; auto.
Qed.

(** X10: the barrier of [FillFolderNode] cannot hang and cannot swallow a
    failure.  Reading as many reports as tasks were launched, the loop
    returns under every order of the reports; it returns nil exactly when
    every task reported nil, and then nothing is left parked; otherwise it
    returns an error that some task did send, and fewer tasks than were
    launched stay parked. *)
Theorem drain_barrier
    (choices : list nat) (pending : list (option error)) (s : St) :
  exists r s',
    drain (len pending) choices pending s = Done (r, s')
    /\ requests s' = requests s
    /\ (r = None <-> Forall (eq None) pending)
    /\ (r = None -> s' = s)
    /\ (forall e, r = Some e ->
           In (Some e) pending
           /\ blocked s <= blocked s' < blocked s + len pending).
Proof.
  destruct (@drain_returns (len pending) choices pending s eq_refl)
    as (r & s' & Hrun & Hreq & Hle & Hsome & Hnone).
  exists r, s'. split; [exact Hrun|]. split; [exact Hreq|].
  split; [split|split].
  - intros Hr. apply Hnone, Hr.
  - intros Hall.
    rewrite (@drain_all_None (len pending) choices pending s eq_refl Hall)
      in Hrun.
    injection Hrun as <- _. reflexivity.
  - intros Hr. apply Hnone, Hr.
  - intros e He. destruct (Hsome e He). auto.
Qed.

(** ** Cost and shape of a successful build *)

Lemma dirCount_eq (n : Node) :
  dirCount n
  = (if IsDir n then 1 else 0) + list_sum (map dirCount (Children n)).
Proof.
  destruct n as [children ? ? isDir ? ? ?]. cbn. f_equal.
  induction children as [|c children IH]; cbn; [reflexivity|].
  rewrite IH. reflexivity.
Qed.

Lemma list_sum_fileChild (files : list StudIPFilesData.t) :
  list_sum (map dirCount (map fileChild files)) = 0.
Proof. induction files as [|file files IH]; cbn; auto. Qed.

(** One fetch: one request more, nothing parked. *)
Lemma CallJSON_state {A} (c : rest.Client) (path : string)
    (decode : rest.Payload -> option A) (s s' : St) (r : result A) :
  rest.CallJSON c path decode s = Done (r, s') ->
  requests s' = (requests s ++ [path])%list /\ blocked s' = blocked s.
Proof.
  intros Hrun.
  destruct (CallJSON_sends_one c path decode s) as (r0 & Hrun0 & _).
  rewrite Hrun in Hrun0. injection Hrun0 as _ ->. split; reflexivity.
Qed.

Lemma RetrieveFoldersOfFolder_Ok_state (f : Fs) (ctx : context.Context)
    (folderID : string) (s s' : St) (folders : StudIPFolders.t) :
  RetrieveFoldersOfFolder f ctx folderID s = Done (Ok folders, s') ->
  len (requests s') = S (len (requests s)) /\ blocked s' = blocked s.
Proof.
  unfold RetrieveFoldersOfFolder.
  destruct (context.Err ctx); [discriminate|].
  intros Hrun. apply CallJSON_state in Hrun. destruct Hrun as [-> ->].
  unfold len. rewrite length_app. cbn. split; lia.
Qed.

Lemma RetrieveFilesOfFolder_Ok_state (f : Fs) (ctx : context.Context)
    (folderID : string) (s s' : St) (files : StudIPFiles.t) :
  RetrieveFilesOfFolder f ctx folderID s = Done (Ok files, s') ->
  len (requests s') = S (len (requests s)) /\ blocked s' = blocked s.
Proof.
  unfold RetrieveFilesOfFolder.
  destruct (context.Err ctx); [discriminate|].
  intros Hrun. apply CallJSON_state in Hrun. destruct Hrun as [-> ->].
  unfold len. rewrite length_app. cbn. split; lia.
Qed.

Lemma spawn_cost (task : Node -> M (result Node)) (children : list Node) :
  (forall child s n s',
      In child children ->
      task child s = Done (Ok n, s') ->
      blocked s' = blocked s
      /\ len (requests s') = len (requests s) + 2 * dirCount n) ->
  forall subs s s',
    spawn task children s = Done (map Ok subs, s') ->
    blocked s' = blocked s
    /\ len (requests s')
       = len (requests s) + 2 * list_sum (map dirCount subs).
Proof.
  induction children as [|child rest IH]; intros Htask subs s s'; cbn.
  - unfold ret. intros [= Hsubs <-]. destruct subs; [|discriminate].
    cbn. split; lia.
  - unfold bind.
    destruct (task child s) as [[r s1]| |] eqn:Hchild; try discriminate.
    destruct (spawn task rest s1) as [[rs s2]| |] eqn:Hrest; try discriminate.
    unfold ret. intros [= Hsubs <-].
    destruct subs as [|sub subs]; [discriminate|].
    cbn in Hsubs. injection Hsubs as -> ->.
    destruct (Htask _ _ _ _ (or_introl eq_refl) Hchild) as [Hb1 Hr1].
    destruct (IH (fun c t n t' Hc => Htask c t n t' (or_intror Hc))
                 _ _ _ Hrest) as [Hb2 Hr2].
    change (list_sum (map dirCount (sub :: subs)))
      with (dirCount sub + list_sum (map dirCount subs)).
    split; lia.
Qed.

Lemma FillFolderNode_cost (f : Fs) (ctx : context.Context) (sched : Sched) :
  forall fuel folderNode node' s s',
    Children folderNode = [] ->
    FillFolderNode fuel f ctx sched folderNode s = Done (Ok node', s') ->
    blocked s' = blocked s
    /\ len (requests s') = len (requests s) + 2 * dirCount node'.
Proof.
  induction fuel as [|fuel IH]; intros folderNode node' s s' Hnil Hfill;
    [discriminate|].
  apply FillFolderNode_Ok_iff in Hfill.
  destruct Hfill as (folders & files & subs & s1 & s2
                     & Hctx & Hdir & Hfolders & Hspawn & Hfiles & ->).
  rewrite Hnil in Hspawn. cbn [app] in Hspawn.
  apply RetrieveFoldersOfFolder_Ok_state in Hfolders.
  apply RetrieveFilesOfFolder_Ok_state in Hfiles.
  apply spawn_cost in Hspawn.
  2:{ intros child t n t' Hin Hchild.
      apply in_map_iff in Hin. destruct Hin as (folder & <- & _).
      eapply IH; [|exact Hchild]. reflexivity. }
  rewrite dirCount_eq. cbn [IsDir Children withChildren]. rewrite Hdir.
  rewrite map_app, list_sum_app, list_sum_fileChild. lia.
Qed.

(** X11: a successful build has sent exactly two requests for every
    folder of the tree it returns (one for its subfolders, one for its
    files), and has left no task parked. *)
Theorem build_sends_two_requests_per_folder
    (fuel : nat) (f : Fs) (ctx : context.Context) (sched : Sched)
    (rootFolderID : string) (s s' : St) (tree : Node) :
  GetCourseFileTree fuel f ctx sched rootFolderID s = Done (Ok tree, s') ->
  blocked s' = blocked s
  /\ len (requests s') = len (requests s) + 2 * dirCount tree.
Proof.
  unfold GetCourseFileTree.
  destruct (context.Err ctx); [discriminate|]. intros Hfill.
  eapply FillFolderNode_cost; [|exact Hfill]. reflexivity.
Qed.

Lemma build_sends_two_requests_per_folder_witness :
  let s' := {| requests := skipn 2 (requests SampleCourse.afterBuild);
               blocked := 0 |} in
  GetCourseFileTree 3 (SampleCourse.mounted false None) context.Background
                    SampleCourse.inOrder "r" SampleCourse.idle
  = Done (Ok SampleCourse.snapshot, s')
  /\ dirCount SampleCourse.snapshot = 3
  /\ len (requests s')
     = len (requests SampleCourse.idle) + 2 * dirCount SampleCourse.snapshot.
Proof.
  intros s'.
  assert (Hbuild :
            GetCourseFileTree 3 (SampleCourse.mounted false None)
                              context.Background SampleCourse.inOrder "r"
                              SampleCourse.idle
            = Done (Ok SampleCourse.snapshot, s'))
    by (vm_compute; reflexivity).
  split; [exact Hbuild | split; [reflexivity|]].
  exact (proj2 (@build_sends_two_requests_per_folder _ _ _ _ _ _ _ _ Hbuild)).
Defined.

(** A node of a built tree is a built folder or the node of a kept file
    record. *)
Lemma node_of_Built (f : Fs) (ctx : context.Context) (n t : Node) :
  inTree n t -> Built f ctx t ->
  Built f ctx n
  \/ exists file, skipped file = false /\ n = fileChild file.
Proof.
  intros Hin. induction Hin as [|c t Hc Hnc IH]; intros Ht; [left; exact Ht|].
  inversion Ht as [? folders files subs _ _ _ Hsubs Hchildren]; subst.
  rewrite Hchildren in Hc. apply in_app_or in Hc. destruct Hc as [Hc | Hc].
  - apply IH.
    clear - Hsubs Hc. induction Hsubs as [|folder sub data subs [Hb _] _ IHs].
    + contradiction.
    + destruct Hc as [<- | Hc]; auto.
  - apply in_map_iff in Hc. destruct Hc as (file & <- & Hfile).
    apply filter_In in Hfile. destruct Hfile as [_ Hkept].
    apply negb_true_iff in Hkept.
    inversion Hnc as [Heq | c' t' Hin' _]; subst.
    + right. exists file. auto.
    + contradiction.
Qed.

(** X12: invariants of the built tree.  Its root is a directory with the
    identifier the build was given and an empty name.  Below it, a file
    node has no children, and a directory node that is a child of some
    node has size [-1] and no content type. *)
Theorem built_tree_invariants
    (fuel : nat) (f : Fs) (ctx : context.Context) (sched : Sched)
    (rootFolderID : string) (s s' : St) (tree : Node) :
  GetCourseFileTree fuel f ctx sched rootFolderID s = Done (Ok tree, s') ->
  (Id tree = rootFolderID /\ IsDir tree = true /\ Name tree = "")
  /\ forall n, inTree n tree ->
       (IsDir n = false -> Children n = [])
       /\ (forall c, In c (Children n) -> IsDir c = true ->
                     Size c = (-1)%Z /\ ContentType c = "").
Proof.
  unfold GetCourseFileTree.
  destruct (context.Err ctx); [discriminate|]. intros Hfill.
  apply FillFolderNode_Built in Hfill; [|reflexivity].
  destruct Hfill as [Hbuilt Hfields]. split.
  - apply (f_equal Id) in Hfields as HId.
    apply (f_equal IsDir) in Hfields as HIsDir.
    apply (f_equal Name) in Hfields as HName. cbn in HId, HIsDir, HName.
    auto.
  - intros n Hin.
    destruct (node_of_Built Hin Hbuilt) as [Hn | (file & _ & ->)].
    + inversion Hn as [? folders files subs Hdir _ _ Hsubs Hchildren]; subst.
      split; [congruence|].
      intros c Hc Hcdir. rewrite Hchildren in Hc.
      apply in_app_or in Hc. destruct Hc as [Hc | Hc].
      * clear - Hsubs Hc.
        induction Hsubs as [|folder sub data subs [_ Heq] _ IHs].
        -- contradiction.
        -- destruct Hc as [<- | Hc]; [|auto].
           apply (f_equal Size) in Heq as HSize.
           apply (f_equal ContentType) in Heq as HType.
           cbn in HSize, HType. auto.
      * apply in_map_iff in Hc. destruct Hc as (file & <- & _).
        discriminate Hcdir.
    + split; [reflexivity|]. intros c [].
Qed.

Lemma built_tree_invariants_witness :
  let s' := {| requests := skipn 2 (requests SampleCourse.afterBuild);
               blocked := 0 |} in
  GetCourseFileTree 3 (SampleCourse.mounted false None) context.Background
                    SampleCourse.inOrder "r" SampleCourse.idle
  = Done (Ok SampleCourse.snapshot, s')
  /\ Id SampleCourse.snapshot = "r".
Proof.
  intros s'.
  assert (Hbuild :
            GetCourseFileTree 3 (SampleCourse.mounted false None)
                              context.Background SampleCourse.inOrder "r"
                              SampleCourse.idle
            = Done (Ok SampleCourse.snapshot, s'))
    by (vm_compute; reflexivity).
  split; [exact Hbuild|].
  exact (proj1 (proj1 (@built_tree_invariants _ _ _ _ _ _ _ _ Hbuild))).
Defined.

(** X13: [FillFolderNode] is for fresh folders.  It launches a task for
    every child the node already has, so on a node that holds a file
    child (any folder it has filled before that has a file) it never
    succeeds. *)
Theorem FillFolderNode_refill_fails
    (fuel : nat) (f : Fs) (ctx : context.Context) (sched : Sched)
    (folderNode c : Node) (s : St) :
  In c (Children folderNode) -> IsDir c = false ->
  forall node' s',
    FillFolderNode fuel f ctx sched folderNode s <> Done (Ok node', s').
Proof.
  intros Hc Hfile node' s' Hfill.
  destruct fuel as [|fuel]; [discriminate|].
  apply FillFolderNode_Ok_iff in Hfill.
  destruct Hfill as (folders & files & subs & s1 & s2
                     & _ & _ & _ & Hspawn & _).
  apply spawn_Forall2 in Hspawn.
  assert (Hheard :
            forall children subs0,
              Forall2 (fun child out =>
                         exists t1 t2,
                           FillFolderNode fuel f ctx sched child t1
                           = Done (out, t2))
                      children (map Ok subs0) ->
              In c children ->
              exists sub t1 t2,
                FillFolderNode fuel f ctx sched c t1 = Done (Ok sub, t2)).
  { intros children.
    induction children as [|child children IH]; intros subs0 Hall Hin;
      [contradiction|].
    destruct subs0 as [|sub subs0]; cbn in Hall;
      inversion Hall as [|? ? ? ? (t1 & t2 & Hchild) Hrest]; subst.
    destruct Hin as [-> | Hin]; [eauto | eapply IH; eauto]. }
  destruct (Hheard _ _ Hspawn (in_or_app _ _ _ (or_introl Hc)))
    as (sub & t1 & t2 & Hchild).
  destruct fuel as [|fuel]; [discriminate|].
  apply FillFolderNode_Ok_iff in Hchild.
  destruct Hchild as (? & ? & ? & ? & ? & _ & Hdir & _). congruence.
Qed.


Lemma FillFolderNode_refill_fails_witness :
  let notes := SampleCourse.leaf "n" "notes.txt" 5 in
  In notes (Children SampleCourse.snapshot)
  /\ IsDir notes = false
  /\ FillFolderNode 3 (SampleCourse.mounted false None) context.Background
                    SampleCourse.inOrder SampleCourse.snapshot
                    SampleCourse.idle
     <> Done (Ok SampleCourse.snapshot, SampleCourse.idle).
Proof.
  intros notes.
  assert (Hin : In notes (Children SampleCourse.snapshot))
    by (right; right; left; reflexivity).
  split; [exact Hin | split; [reflexivity|]].
  exact (@FillFolderNode_refill_fails 3 (SampleCourse.mounted false None)
           context.Background SampleCourse.inOrder SampleCourse.snapshot
           notes SampleCourse.idle Hin eq_refl SampleCourse.snapshot
           SampleCourse.idle).
Defined.

(** ** A failing build under different schedules *)










(** ** The build returns the tree the server describes *)

Lemma bind_Done_inv {A B} (m : M A) (k : A -> M B) (s : St)
    (x : B * St) :
  bind m k s = Done x ->
  exists a s1, m s = Done (a, s1) /\ k a s1 = Done x.
Proof.
  unfold bind. destruct (m s) as [[a s1]| |]; try discriminate. eauto.
Qed.

Lemma spawn_mono (task1 task2 : Node -> M (result Node)) :
  (forall child s x, task1 child s = Done x -> task2 child s = Done x) ->
  forall children s y,
    spawn task1 children s = Done y -> spawn task2 children s = Done y.
Proof.
  intros Htask children.
  induction children as [|child rest IH]; intros s y; cbn; [auto|].
  intros Hrun.
  apply bind_Done_inv in Hrun. destruct Hrun as (r & s1 & Hchild & Hrun).
  apply bind_Done_inv in Hrun. destruct Hrun as (rs & s2 & Hrest & Hrun).
  unfold bind. rewrite (Htask _ _ _ Hchild), (IH _ _ Hrest). exact Hrun.
Qed.

(** More fuel does not change what a fill returns. *)
Lemma FillFolderNode_more_fuel (f : Fs) (ctx : context.Context)
    (sched : Sched) :
  forall fuel folderNode s x,
    FillFolderNode fuel f ctx sched folderNode s = Done x ->
    FillFolderNode (S fuel) f ctx sched folderNode s = Done x.
Proof.
  induction fuel as [|fuel IH]; intros folderNode s x Hrun; [discriminate|].
  cbn [FillFolderNode] in Hrun.
  remember (S fuel) as fuel1 eqn:Hfuel1. cbn [FillFolderNode]. subst fuel1.
  destruct (context.Err ctx); [exact Hrun|].
  destruct (negb (IsDir folderNode)); [exact Hrun|].
  apply bind_Done_inv in Hrun.
  destruct Hrun as ([folders|e] & s1 & Hfolders & Hrun);
    unfold bind at 1; rewrite Hfolders; [|exact Hrun].
  cbv zeta in Hrun |- *.
  apply bind_Done_inv in Hrun. destruct Hrun as (outs & s2 & Hspawn & Hrun).
  unfold bind at 1. rewrite (spawn_mono _ _ IH _ _ Hspawn). exact Hrun.
Qed.

Lemma FillFolderNode_fuel_le (f : Fs) (ctx : context.Context)
    (sched : Sched) (fuel fuel' : nat) (folderNode : Node) (s : St)
    (x : result Node * St) :
  fuel <= fuel' ->
  FillFolderNode fuel f ctx sched folderNode s = Done x ->
  FillFolderNode fuel' f ctx sched folderNode s = Done x.
Proof.
  intros Hle Hrun. induction Hle as [|fuel' _ IH]; [exact Hrun|].
  apply FillFolderNode_more_fuel, IH.
Qed.

(** Induction over the folders of a tree of shape [Built]. *)
Lemma Built_strong_ind (f : Fs) (ctx : context.Context) (P : Node -> Prop) :
  (forall n folders files subs,
      IsDir n = true ->
      fetches (RetrieveFoldersOfFolder f ctx (Id n)) folders ->
      fetches (RetrieveFilesOfFolder f ctx (Id n)) files ->
      Forall2 (fun folder sub =>
                 P sub /\ withChildren sub [] = folderChild folder)
              (StudIPFolders.Data folders) subs ->
      Children n =
        (subs ++ map fileChild
                     (filter (fun file => negb (skipped file))
                             (StudIPFiles.Data files)))%list ->
      P n) ->
  forall n, Built f ctx n -> P n.
Proof.
  intros step. fix IH 2. intros n Hn.
  destruct Hn as [n folders files subs Hdir Hfolders Hfiles Hsubs Hchildren].
  apply (step n folders files subs Hdir Hfolders Hfiles); [|exact Hchildren].
  revert Hsubs. generalize (StudIPFolders.Data folders) subs.
  fix IHs 3. intros data subs0 Hsubs.
  destruct Hsubs as [|folder sub data subs0 [Hb Heq] Hrest].
  - constructor.
  - constructor; [split; [apply IH, Hb | exact Heq] | apply IHs, Hrest].
Qed.

Lemma fetches_live_context (f : Fs) (ctx : context.Context)
    (folderID : string) (folders : StudIPFolders.t) :
  fetches (RetrieveFoldersOfFolder f ctx folderID) folders ->
  context.Err ctx = None.
Proof.
  intros Hfetch. destruct (Hfetch SampleCourse.idle) as [s' Hrun].
  unfold RetrieveFoldersOfFolder in Hrun.
  destruct (context.Err ctx); [discriminate | reflexivity].
Qed.

(** Tasks that each succeed from every state succeed one after the
    other. *)
Lemma spawn_all_Ok (task : Node -> M (result Node)) (children subs : list Node) :
  Forall2 (fun child sub =>
             forall s, exists s', task child s = Done (Ok sub, s'))
          children subs ->
  forall s, exists s', spawn task children s = Done (map Ok subs, s').
Proof.
  intros Hall. induction Hall as [|child sub children subs Hchild _ IH];
    intros s; cbn.
  - eexists. reflexivity.
  - unfold bind. destruct (Hchild s) as [s1 ->].
    destruct (IH s1) as [s2 ->]. eexists. reflexivity.
Qed.

(** One amount of fuel that serves all the subfolders. *)
Lemma common_fuel (f : Fs) (ctx : context.Context)
    (data : list StudIPFoldersData.t) (subs : list Node) :
  Forall2 (fun folder sub =>
             (exists fuel, forall sched s, exists s',
                 FillFolderNode fuel f ctx sched (withChildren sub []) s
                 = Done (Ok sub, s'))
             /\ withChildren sub [] = folderChild folder)
          data subs ->
  exists fuel,
    Forall2 (fun child sub =>
               forall sched s, exists s',
                 FillFolderNode fuel f ctx sched child s = Done (Ok sub, s'))
            (map folderChild data) subs.
Proof.
  intros Hall.
  induction Hall as [|folder sub data subs [[fuel1 Hsub] Heq] _ [fuel2 IH]].
  - exists 0. constructor.
  - exists (Nat.max fuel1 fuel2). cbn [map]. constructor.
    + intros sched s. destruct (Hsub sched s) as [s' Hrun]. exists s'.
      rewrite <- Heq.
      eapply FillFolderNode_fuel_le; [apply Nat.le_max_l | exact Hrun].
    + eapply Forall2_impl; [|exact IH].
      intros child sub0 Hchild sched s.
      destruct (Hchild sched s) as [s' Hrun]. exists s'.
      eapply FillFolderNode_fuel_le; [apply Nat.le_max_r | exact Hrun].
Qed.

Lemma FillFolderNode_complete (f : Fs) (ctx : context.Context) (tree : Node) :
  Built f ctx tree ->
  exists fuel, forall sched s, exists s',
    FillFolderNode fuel f ctx sched (withChildren tree []) s
    = Done (Ok tree, s').
Proof.
  revert tree. apply Built_strong_ind.
  intros n folders files subs Hdir Hfolders Hfiles Hsubs Hchildren.
  destruct (@common_fuel f ctx _ _ Hsubs) as [fuel Hfuel].
  exists (S fuel). intros sched s.
  destruct (Hfolders s) as [s1 Hs1].
  assert (Hspawn : exists s2,
             spawn (FillFolderNode fuel f ctx sched)
                   (map folderChild (StudIPFolders.Data folders)) s1
             = Done (map Ok subs, s2)).
  { apply spawn_all_Ok. eapply Forall2_impl; [|exact Hfuel].
    intros child sub Hchild. apply Hchild. }
  destruct Hspawn as [s2 Hs2].
  destruct (Hfiles s2) as [s' Hs'].
  exists s'. apply FillFolderNode_Ok_iff.
  exists folders, files, subs, s1, s2.
  split; [eapply fetches_live_context, Hfolders|].
  split; [exact Hdir|]. split; [exact Hs1|]. split; [exact Hs2|].
  split; [exact Hs'|].
  destruct n; cbn in *. subst. reflexivity.
Qed.

(** X15: the build returns the tree the server describes.  When the
    answers of the server describe a finite tree (a root folder of shape
    [Built], with the fields of a fresh root), then from some amount of
    fuel on [GetCourseFileTree] returns exactly that tree, from every
    state and under every order of the reports. *)
Theorem build_returns_described_tree
    (f : Fs) (ctx : context.Context) (tree : Node) :
  Built f ctx tree ->
  Name tree = "" -> ChDate tree = 0%Z -> Size tree = 0%Z ->
  ContentType tree = "" ->
  exists fuel, forall fuel' sched s,
    fuel <= fuel' ->
    exists s',
      GetCourseFileTree fuel' f ctx sched (Id tree) s = Done (Ok tree, s').
Proof.
  intros Hbuilt HName HChDate HSize HType.
  destruct (@FillFolderNode_complete f ctx tree Hbuilt) as [fuel Hfill].
  exists fuel. intros fuel' sched s Hle.
  destruct (Hfill sched s) as [s' Hrun]. exists s'.
  unfold GetCourseFileTree.
  inversion Hbuilt as [? folders ? ? Hdir Hfolders _ _ _]; subst.
  rewrite (@fetches_live_context f ctx _ _ Hfolders).
  eapply FillFolderNode_fuel_le; [exact Hle|].
  rewrite <- Hrun. f_equal.
  destruct tree; cbn in *. subst. reflexivity.
Qed.

Lemma build_returns_described_tree_witness :
  Built (SampleCourse.mounted false None) context.Background
        SampleCourse.snapshot
  /\ exists fuel, forall fuel' sched s,
       fuel <= fuel' ->
       exists s',
         GetCourseFileTree fuel' (SampleCourse.mounted false None)
                           context.Background sched "r" s
         = Done (Ok SampleCourse.snapshot, s').
Proof.
  assert (Hbuilt : Built (SampleCourse.mounted false None) context.Background
                         SampleCourse.snapshot).
  { assert (Hrun :
              FillFolderNode 3 (SampleCourse.mounted false None)
                             context.Background SampleCourse.inOrder
                             SampleCourse.rootFolder SampleCourse.idle
              = Done (Ok SampleCourse.snapshot,
                      {| requests :=
                           skipn 2 (requests SampleCourse.afterBuild);
                         blocked := 0 |}))
      by (vm_compute; reflexivity).
    apply FillFolderNode_Built in Hrun; [apply Hrun | reflexivity]. }
  split; [exact Hbuilt|].
  exact (@build_returns_described_tree _ _ SampleCourse.snapshot Hbuilt
           eq_refl eq_refl eq_refl eq_refl).
Defined.

(** ** Initialisation *)

(** What a successful [NewFs] has gone through. *)
Lemma NewFs_Ok_inv (host : Host) (fuel : nat) (sched : Sched)
    (ctx : context.Context) (name root : string)
    (m : string -> option string) (s s' : St) (f : Fs) :
  NewFs host fuel sched ctx name root m s = Done (Ok f, s') ->
  context.Err ctx = None
  /\ (CourseID (configstruct_Set m) =? "") = false
  /\ Fs_Name f = name /\ opt f = configstruct_Set m
  /\ Fs_Root f = root
  /\ exists s1 s2 rootID tree,
       TestConnection f ctx s = Done (None, s1)
       /\ RetrieveRootFolderID f ctx s1 = Done (Ok rootID, s2)
       /\ GetCourseFileTree fuel f ctx sched rootID s2 = Done (Ok tree, s')
       /\ (if root =? "" then Done (Some tree, s')
           else GetNodeAtPath (Some tree) (splitPath (filepath.Dir root)) s')
          = Done (rootNode f, s').
Proof.
  unfold NewFs.
  destruct (context.Err ctx) eqn:Hctx; [discriminate|].
  destruct (CourseID (configstruct_Set m) =? "") eqn:Hid; [discriminate|].
  destruct (url_Parse host (BaseURL (configstruct_Set m))) as [base|];
    [|discriminate].
  unfold bind, obscure_MustReveal.
  destruct (obscure_Reveal host (Password (configstruct_Set m)))
    as [password|]; cbn [ret panic]; [|discriminate].
  set (f0 := {| name := name; opt := configstruct_Set m;
                client := serve host base (Username (configstruct_Set m))
                                password;
                root := root; rootNode := None |}).
  destruct (TestConnection f0 ctx s) as [[[e|] s1]| |] eqn:Htest;
    try discriminate.
  destruct (RetrieveRootFolderID f0 ctx s1) as [[[rootID|e] s2]| |] eqn:Hroot;
    try discriminate.
  destruct (GetCourseFileTree fuel f0 ctx sched rootID s2)
    as [[[tree|e] s3]| |] eqn:Htree; try discriminate.
  assert (Hsame : forall f1, client f1 = client f0 -> opt f1 = opt f0 ->
            TestConnection f1 ctx s = Done (None, s1)
            /\ RetrieveRootFolderID f1 ctx s1 = Done (Ok rootID, s2)
            /\ GetCourseFileTree fuel f1 ctx sched rootID s2
               = Done (Ok tree, s3)).
  { intros f1 Hclient Hopt. split; [|split].
    - rewrite <- Htest. unfold TestConnection. rewrite Hclient, Hopt.
      reflexivity.
    - rewrite <- Hroot. unfold RetrieveRootFolderID. rewrite Hclient, Hopt.
      reflexivity.
    - rewrite <- Htree. apply GetCourseFileTree_client, Hclient. }
  destruct (root =? "") eqn:Hempty; cbn [negb].
  - unfold ret. intros [= <- <-].
    split; [reflexivity|]. split; [reflexivity|].
    split; [reflexivity|]. split; [reflexivity|].
    split; [reflexivity|].
    exists s1, s2, rootID, tree.
    destruct (Hsame {| name := name; opt := configstruct_Set m;
                       client := client f0; root := root;
                       rootNode := Some tree |} eq_refl eq_refl)
      as (H1 & H2 & H3).
    auto.
  - cbn [rootNode].
    destruct (GetNodeAtPath (Some tree) (splitPath (filepath.Dir root)) s3)
      as [[node s4]| |] eqn:Hnode; try discriminate.
    unfold ret. intros [= <- <-].
    apply GetNodeAtPath_state in Hnode as Hs4. subst s4.
    split; [reflexivity|]. split; [reflexivity|].
    split; [reflexivity|]. split; [reflexivity|].
    split; [reflexivity|].
    exists s1, s2, rootID, tree.
    destruct (Hsame {| name := name; opt := configstruct_Set m;
                       client := client f0; root := root;
                       rootNode := node |} eq_refl eq_refl)
      as (H1 & H2 & H3).
    auto.
Qed.

Lemma TestConnection_state (f : Fs) (ctx : context.Context) (s s1 : St) :
  TestConnection f ctx s = Done (None, s1) ->
  len (requests s1) = S (len (requests s)) /\ blocked s1 = blocked s.
Proof.
  unfold TestConnection. destruct (context.Err ctx); [discriminate|].
  unfold bind.
  destruct (Call_sends_one (client f) ("courses/" ++ CourseID (opt f)) s)
    as (r & -> & _).
  assert (Hstate : forall (k : M (option error)) x t,
             k t = Done (x, s1) -> (forall u, exists y, k u = Done (y, u)) ->
             s1 = t).
  { intros k x t Hk Hall. destruct (Hall t) as [y Hy]. congruence. }
  intros Hrun.
  assert (Hs1 : s1 = {| requests :=
                          (requests s
                           ++ [("courses/" ++ CourseID (opt f))%string])%list;
                        blocked := blocked s |}).
  { destruct r as [resp|e]; [|discriminate].
    destruct (rest.asCourses (rest.Body resp)); [|discriminate].
    destruct (negb _); [discriminate|].
    unfold ret in Hrun. injection Hrun as <-. reflexivity. }
  subst s1. cbn. unfold len. rewrite length_app. cbn. split; lia.
Qed.

Lemma RetrieveRootFolderID_Ok_inv (f : Fs) (ctx : context.Context)
    (s s' : St) (rootID : string) :
  RetrieveRootFolderID f ctx s = Done (Ok rootID, s') ->
  (len (requests s') = S (len (requests s)) /\ blocked s' = blocked s)
  /\ exists listing e,
       fetches (rest.CallJSON (client f)
                  ("courses/" ++ CourseID (opt f) ++ "/folders")
                  rest.asFolders) listing
       /\ find isRootFolder (StudIPFolders.Data listing) = Some e
       /\ rootID = StudIPFoldersData.ID e.
Proof.
  unfold RetrieveRootFolderID. destruct (context.Err ctx); [discriminate|].
  intros Hrun. apply bind_Done_inv in Hrun.
  destruct Hrun as ([listing|e] & s1 & Hcall & Hrun); [|discriminate].
  destruct (find isRootFolder (StudIPFolders.Data listing)) as [e|] eqn:Hfind;
    [|discriminate].
  unfold ret in Hrun. injection Hrun as <- <-.
  split.
  - apply CallJSON_state in Hcall as [-> ->].
    unfold len. rewrite length_app. cbn. split; lia.
  - exists listing, e. split; [eapply CallJSON_fetches, Hcall | auto].
Qed.

(** X16: what a successful [NewFs] with the empty root holds.  The
    configured course id is not empty; the root node is a directory whose
    identifier is that of the first [RootFolder] entry of the course's
    folder listing, with below it the tree the server describes; two
    requests went out before the build and two for every folder of the
    tree, and no task is left parked. *)
Theorem NewFs_snapshot
    (host : Host) (fuel : nat) (sched : Sched) (ctx : context.Context)
    (name : string) (m : string -> option string) (s s' : St) (f : Fs) :
  NewFs host fuel sched ctx name "" m s = Done (Ok f, s') ->
  CourseID (opt f) <> ""
  /\ exists tree,
       rootNode f = Some tree
       /\ IsDir tree = true
       /\ Built f ctx tree
       /\ (exists listing e,
             fetches (rest.CallJSON (client f)
                        ("courses/" ++ CourseID (opt f) ++ "/folders")
                        rest.asFolders) listing
             /\ find isRootFolder (StudIPFolders.Data listing) = Some e
             /\ Id tree = StudIPFoldersData.ID e)
       /\ len (requests s') = len (requests s) + 2 + 2 * dirCount tree
       /\ blocked s' = blocked s.
Proof.
  intros Hnew. apply NewFs_Ok_inv in Hnew.
  destruct Hnew as (Hctx & Hid & _ & Hopt & _
                    & s1 & s2 & rootID & tree & Htest & Hroot & Htree & Hnode).
  cbn in Hnode. injection Hnode as Hnode.
  split; [rewrite Hopt; apply String.eqb_neq, Hid|].
  exists tree. split; [congruence|].
  apply TestConnection_state in Htest. destruct Htest as [Hr1 Hb1].
  apply RetrieveRootFolderID_Ok_inv in Hroot.
  destruct Hroot as ([Hr2 Hb2] & listing & e & Hfetch & Hfind & ->).
  pose proof Htree as Hcost. unfold GetCourseFileTree in Htree, Hcost.
  rewrite Hctx in Htree, Hcost.
  apply FillFolderNode_cost in Hcost; [|reflexivity].
  apply FillFolderNode_Built in Htree; [|reflexivity].
  destruct Htree as [Hbuilt Hfields]. destruct Hcost as [Hb3 Hr3].
  apply (f_equal IsDir) in Hfields as HIsDir.
  apply (f_equal Id) in Hfields as HId. cbn in HIsDir, HId.
  split; [exact HIsDir|]. split; [exact Hbuilt|].
  split; [exists listing, e; auto|]. split; lia.
Qed.

Lemma NewFs_snapshot_witness :
  NewFs (SampleCourse.host false) 3 SampleCourse.inOrder context.Background
        "studip" "" SampleCourse.config SampleCourse.idle
  = Done (Ok (SampleCourse.mounted false (Some SampleCourse.snapshot)),
          SampleCourse.afterBuild)
  /\ exists tree,
       rootNode (SampleCourse.mounted false (Some SampleCourse.snapshot))
       = Some tree
       /\ IsDir tree = true.
Proof.
  assert (Hnew :
            NewFs (SampleCourse.host false) 3 SampleCourse.inOrder
                  context.Background "studip" "" SampleCourse.config
                  SampleCourse.idle
            = Done (Ok (SampleCourse.mounted false
                          (Some SampleCourse.snapshot)),
                    SampleCourse.afterBuild))
    by (vm_compute; reflexivity).
  split; [exact Hnew|].
  destruct (@NewFs_snapshot _ _ _ _ _ _ _ _ _ Hnew)
    as (_ & tree & Hroot & Hdir & _).
  exists tree. split; [exact Hroot | exact Hdir].
Defined.

(** X17: without a course id nothing is attempted.  When the
    configuration has no [course_id], or an empty one, [NewFs] with a live
    context returns the error "course_id is required" before it parses
    the base URL, reveals the password or sends a request. *)
Theorem NewFs_requires_course_id
    (host : Host) (fuel : nat) (sched : Sched) (ctx : context.Context)
    (name root : string) (m : string -> option string) (s : St) :
  context.Err ctx = None ->
  m "course_id" = None \/ m "course_id" = Some "" ->
  NewFs host fuel sched ctx name root m s
  = Done (Err (errors_New "course_id is required"), s).
Proof.
  intros Hctx Hid. unfold NewFs. rewrite Hctx.
  assert (Hempty : CourseID (configstruct_Set m) = "")
    by (unfold configstruct_Set; cbn; destruct Hid as [-> | ->]; reflexivity).
  rewrite Hempty. reflexivity.
Qed.

Lemma NewFs_requires_course_id_witness :
  let m := fun key : string =>
             if key =? "base_url" then Some "https://studip.example/" else None in
  context.Err context.Background = None
  /\ (m "course_id" = None \/ m "course_id" = Some "")
  /\ NewFs (SampleCourse.host false) 3 SampleCourse.inOrder
           context.Background "studip" "docs" m SampleCourse.idle
     = Done (Err (errors_New "course_id is required"), SampleCourse.idle).
Proof.
  intros m.
  assert (Hid : m "course_id" = None \/ m "course_id" = Some "")
    by (left; reflexivity).
  split; [reflexivity | split; [exact Hid|]].
  exact (@NewFs_requires_course_id (SampleCourse.host false) 3
           SampleCourse.inOrder context.Background "studip" "docs" m
           SampleCourse.idle eq_refl Hid).
Defined.

(** With a non-empty root [NewFs] goes through the same steps as with the
    empty one and then stores what the resolver returns for the parent
    directory of the root. *)
Lemma NewFs_reroot (host : Host) (fuel : nat) (sched : Sched)
    (ctx : context.Context) (name root : string)
    (m : string -> option string) (s s' : St) (f0 : Fs)
    (node : option Node) :
  root <> "" ->
  NewFs host fuel sched ctx name "" m s = Done (Ok f0, s') ->
  GetNodeAtPath (rootNode f0) (splitPath (filepath.Dir root)) s'
  = Done (node, s') ->
  exists f,
    NewFs host fuel sched ctx name root m s = Done (Ok f, s')
    /\ rootNode f = node.
Proof.
  intros Hroot H0 Hnode.
  apply String.eqb_neq in Hroot.
  unfold NewFs in *. rewrite Hroot.
  destruct (context.Err ctx) eqn:Hctx; [discriminate|].
  destruct (CourseID (configstruct_Set m) =? ""); [discriminate|].
  destruct (url_Parse host (BaseURL (configstruct_Set m))) as [base|];
    [|discriminate].
  unfold bind in *.
  destruct (obscure_MustReveal host (Password (configstruct_Set m)) s)
    as [[password s1]| |]; try discriminate.
  unfold TestConnection in *. cbn [client opt] in *. rewrite Hctx in *.
  unfold bind in *.
  destruct (rest.Call _ _ s1) as [[res s2]| |]; try discriminate.
  destruct res as [res|e]; [|discriminate].
  destruct (rest.asCourses (rest.Body res)) as [responseJSON|];
    [|discriminate].
  destruct (negb _); [discriminate|].
  unfold ret in H0 at 1. unfold ret at 1.
  unfold RetrieveRootFolderID in *. cbn [client opt] in *. rewrite Hctx in *.
  unfold bind in *.
  destruct (rest.CallJSON _ _ _ s2) as [[folders s3]| |]; try discriminate.
  destruct folders as [folders|e]; [|discriminate].
  destruct (find isRootFolder _) as [e|]; [|discriminate].
  unfold ret in H0 at 1. unfold ret at 1.
  match type of H0 with
  | match GetCourseFileTree _ ?fa _ _ _ _ with _ => _ end = _ =>
      match goal with
      | |- context [GetCourseFileTree _ ?fb _ _ _ _] =>
          rewrite (@GetCourseFileTree_client fb fa ctx sched eq_refl)
      end;
      destruct (GetCourseFileTree fuel fa ctx sched (StudIPFoldersData.ID e) s3)
        as [[tree s4]| |]; try discriminate
  end.
  destruct tree as [tree|e1]; [|discriminate].
  cbn in H0. injection H0 as <- <-. cbn in Hnode. cbn.
  rewrite Hnode. eexists. split; reflexivity.
Qed.

(** X18: which node a non-empty root selects.  Where [NewFs] with the
    empty root succeeds with the course tree, it succeeds with every other
    root too, from the same requests.  A root without a separator and an
    absolute root leave the whole course tree as root node; a root
    [d/leaf] with a plain first element selects the first child named [d]
    of the course root, or nil when there is none: the last element of
    the root is never looked up. *)
Theorem NewFs_root_node
    (host : Host) (fuel : nat) (sched : Sched) (ctx : context.Context)
    (name root : string) (m : string -> option string) (s s' : St)
    (f0 : Fs) :
  root <> "" ->
  NewFs host fuel sched ctx name "" m s = Done (Ok f0, s') ->
  exists tree f,
    rootNode f0 = Some tree
    /\ NewFs host fuel sched ctx name root m s = Done (Ok f, s')
    /\ (hasSeparator root = false \/ path.rooted root = true ->
        rootNode f = Some tree)
    /\ (forall d leaf,
          plainSegment d = true -> hasSeparator leaf = false ->
          root = d ++ "/" ++ leaf ->
          rootNode f = firstNamed d (Children tree)).
Proof.
  intros Hroot H0.
  pose proof (NewFs_Ok_inv _ _ _ _ _ _ _ _ H0) as Hinv.
  destruct Hinv as (_ & _ & _ & _ & _ & s1 & s2 & rootID & tree
                    & _ & _ & _ & Hnode0).
  cbn in Hnode0. injection Hnode0 as Hnode0. symmetry in Hnode0.
  destruct (GetNodeAtPath_returns (splitPath (filepath.Dir root)) tree s')
    as [node Hnode].
  rewrite <- Hnode0 in Hnode.
  destruct (@NewFs_reroot host fuel sched ctx name root m s s' f0 node
              Hroot H0 Hnode) as (f & Hnew & Hf).
  rewrite Hnode0 in Hnode.
  exists tree, f. split; [exact Hnode0|]. split; [exact Hnew|]. split.
  - intros Hcase.
    rewrite (proj1 (reroot_path_of_root (Some tree) root) Hcase) in Hnode.
    unfold ret in Hnode. congruence.
  - intros d leaf Hd Hleaf Heq.
    rewrite (proj2 (reroot_path_of_root (Some tree) root) d leaf Hd Hleaf Heq)
      in Hnode.
    destruct (plainSegment_spec d Hd) as (_ & Hempty & Hdot & _).
    cbn [GetNodeAtPath] in Hnode. rewrite Hdot, Hempty in Hnode.
    unfold bind in Hnode. cbn in Hnode.
    destruct (firstNamed d (Children tree)); unfold ret in Hnode; congruence.
Qed.

Lemma NewFs_root_node_witness :
  "docs/a.pdf" <> ""
  /\ NewFs (SampleCourse.host false) 3 SampleCourse.inOrder
           context.Background "studip" "" SampleCourse.config
           SampleCourse.idle
     = Done (Ok (SampleCourse.mounted false (Some SampleCourse.snapshot)),
             SampleCourse.afterBuild)
  /\ exists f,
       NewFs (SampleCourse.host false) 3 SampleCourse.inOrder
             context.Background "studip" "docs/a.pdf" SampleCourse.config
             SampleCourse.idle
       = Done (Ok f, SampleCourse.afterBuild)
       /\ rootNode f
          = Some (SampleCourse.dir "d" "docs" [SampleCourse.leaf "p" "a.pdf" 10]).
Proof.
  assert (Hroot : "docs/a.pdf" <> "") by discriminate.
  assert (H0 :
            NewFs (SampleCourse.host false) 3 SampleCourse.inOrder
                  context.Background "studip" "" SampleCourse.config
                  SampleCourse.idle
            = Done (Ok (SampleCourse.mounted false
                          (Some SampleCourse.snapshot)),
                    SampleCourse.afterBuild))
    by (vm_compute; reflexivity).
  split; [exact Hroot | split; [exact H0|]].
  destruct (@NewFs_root_node _ _ _ _ _ "docs/a.pdf" _ _ _ _ Hroot H0)
    as (tree & f & Htree & Hnew & _ & Hchild).
  exists f. split; [exact Hnew|].
  rewrite (Hchild "docs" "a.pdf" eq_refl eq_refl eq_refl).
  cbn in Htree. injection Htree as <-. reflexivity.
Defined.

(** ** What a listing shows *)

(** A directory that is a child in a built tree carries the size [-1]. *)
Lemma Built_dir_child_fields (f : Fs) (ctx : context.Context) (n t c : Node) :
  Built f ctx t -> inTree n t -> In c (Children n) -> IsDir c = true ->
  Size c = (-1)%Z /\ ContentType c = "".
Proof.
  intros Hbuilt Hin Hc Hcdir.
  destruct (node_of_Built Hin Hbuilt) as [Hn | (file & _ & ->)];
    [|contradiction].
  inversion Hn as [? folders files subs Hdir _ _ Hsubs Hchildren]; subst.
  rewrite Hchildren in Hc. apply in_app_or in Hc. destruct Hc as [Hc | Hc].
  - clear - Hsubs Hc.
    induction Hsubs as [|folder sub data subs [_ Heq] _ IHs];
      [contradiction|].
    destruct Hc as [<- | Hc]; [|auto].
    apply (f_equal Size) in Heq as HSize.
    apply (f_equal ContentType) in Heq as HType.
    cbn in HSize, HType. auto.
  - apply in_map_iff in Hc. destruct Hc as (file & <- & _).
    discriminate Hcdir.
Qed.

(** X19: a listing shows the nodes as they are.  For a folder of a built
    tree, the entries [List] returns are as many as the folder has
    children, and through their accessors every entry gives the joined
    remote path, the size, the change date and, by kind, the identifier,
    name and child count or the MIME type of one child, and every child is
    shown by one entry; the constant [-1] of [Directory.Size] is the size
    the build gave the directory node. *)
Theorem List_entries_show_children
    (fuel : nat) (f : Fs) (ctx : context.Context) (sched : Sched)
    (rootFolderID : string) (s s' : St) (tree : Node)
    (f' : Fs) (ctx' : context.Context) (dir : string) (t : St) (n : Node)
    (entries : list Entry) :
  GetCourseFileTree fuel f ctx sched rootFolderID s = Done (Ok tree, s') ->
  inTree n tree ->
  GetNodeAtPath (rootNode f') (strings.Split dir os.PathSeparator) t
  = Done (Some n, t) ->
  List f' ctx' dir t = Done (Ok entries, t) ->
  len entries = len (Children n)
  /\ (forall e, In e entries ->
        exists c, In c (Children n) /\ shows f' ctx' dir e c)
  /\ (forall c, In c (Children n) ->
        exists e, In e entries /\ shows f' ctx' dir e c).
Proof.
  unfold GetCourseFileTree.
  destruct (context.Err ctx); [discriminate|]. intros Hfill Hin Hnode Hlist.
  apply FillFolderNode_Built in Hfill; [|reflexivity].
  destruct Hfill as [Hbuilt _].
  apply List_returns_entries in Hlist.
  destruct Hlist as (node & Hnode' & _ & ->).
  rewrite Hnode in Hnode'. injection Hnode' as <-.
  pose proof (Slice_Permutation fs.Less
                (map (projectEntry f' dir) (Children n))) as Hperm.
  assert (Hshows : forall c, In c (Children n) ->
                             shows f' ctx' dir (projectEntry f' dir c) c).
  { intros c Hc. unfold shows, projectEntry.
    destruct (IsDir c) eqn:Hcdir; cbn.
    - destruct (@Built_dir_child_fields f ctx n tree c Hbuilt Hin Hc Hcdir)
        as [HSize _].
      unfold Directory_Size. rewrite HSize. repeat split.
    - repeat split. }
  split; [|split].
  - apply Permutation_length in Hperm. unfold len in *.
    rewrite <- Hperm. apply length_map.
  - intros e He.
    eapply Permutation_in in He; [|apply Permutation_sym, Hperm].
    apply in_map_iff in He. destruct He as (c & <- & Hc).
    exists c. split; [exact Hc | apply Hshows, Hc].
  - intros c Hc. exists (projectEntry f' dir c). split; [|apply Hshows, Hc].
    eapply Permutation_in; [exact Hperm|]. apply in_map, Hc.
Qed.

Lemma List_entries_show_children_witness :
  let f := SampleCourse.mounted false None in
  let f' := SampleCourse.mounted false (Some SampleCourse.snapshot) in
  GetCourseFileTree 3 f context.Background SampleCourse.inOrder "r"
                    SampleCourse.idle
  = Done (Ok SampleCourse.snapshot,
          {| requests := skipn 2 (requests SampleCourse.afterBuild);
             blocked := 0 |})
  /\ exists entries,
       List f' context.Background "" SampleCourse.idle
       = Done (Ok entries, SampleCourse.idle)
       /\ len entries = 4.
Proof.
  intros f f'.
  assert (Hbuild :
            GetCourseFileTree 3 f context.Background SampleCourse.inOrder "r"
                              SampleCourse.idle
            = Done (Ok SampleCourse.snapshot,
                    {| requests := skipn 2 (requests SampleCourse.afterBuild);
                       blocked := 0 |}))
    by (vm_compute; reflexivity).
  split; [exact Hbuild|].
  assert (Hlist : exists entries,
             List f' context.Background "" SampleCourse.idle
             = Done (Ok entries, SampleCourse.idle))
    by (eexists; vm_compute; reflexivity).
  destruct Hlist as [entries Hlist]. exists entries.
  split; [exact Hlist|].
  assert (Hnode :
            GetNodeAtPath (rootNode f') (strings.Split "" os.PathSeparator)
                          SampleCourse.idle
            = Done (Some SampleCourse.snapshot, SampleCourse.idle))
    by reflexivity.
  exact (proj1 (@List_entries_show_children _ _ _ _ _ _ _ _ f'
                  context.Background "" SampleCourse.idle
                  SampleCourse.snapshot entries Hbuild
                  (inTree_here SampleCourse.snapshot) Hnode Hlist)).
Defined.
